(** * LED blink speed control on the STM32F446RE: register-level model

    Shallow embedding of [Core/Src/main.c].  The program is a sequence of
    volatile accesses to memory-mapped 32-bit registers plus one volatile
    8-bit global ([speed]).  Every C function becomes a computation in a
    small state-and-output monad: the state is the register file together
    with [speed], the output is the list of volatile accesses and calls
    performed, in program order.

    Integers are [Z] with the C conversions written out: [u32] for a value
    stored into a [uint32_t] register, [u8] for the [uint8_t] global. *)

From Stdlib Require Import ZArith List Bool Lia Btauto.
Import ListNotations.
Local Open Scope Z_scope.

(** ** Macros and constants (main.c, lines 15-58) *)

Definition HIGH_SPEED : Z := 4000000.
Definition MEDIUM_SPEED : Z := 8000000.
Definition LOW_SPEED : Z := 16000000.

Definition RCC_BASE : Z := 0x40023800.
Definition SYSTICK_BASE : Z := 0xE000E010.
Definition SYSCFG_BASE : Z := 0x40013800.
Definition EXTI_BASE : Z := 0x40013C00.
Definition NVIC_BASE : Z := 0xE000E100.
Definition GPIOA_BASE : Z := 0x40020000.
Definition GPIOC_BASE : Z := 0x40020800.

(** The memory-mapped registers the program names. *)
Inductive Reg : Set :=
| RCC_AHB1ENR | RCC_APB2ENR
| SYSTICK_CTRL | SYSTICK_RELOAD | SYSTICK_CURRENT
| SYSCFG_EXTICR4
| EXTI_IMR | EXTI_EMR | EXTI_RTSR | EXTI_FTSR | EXTI_PR
| NVIC_ISER1
| GPIOA_MODER | GPIOA_OTYPER | GPIOA_OSPEEDER | GPIOA_PUPDR | GPIOA_ODR
| GPIOC_MODER | GPIOC_PUPDR.

(** Address of each register, as the macros compute it. *)
Definition addr (r : Reg) : Z :=
  match r with
  | RCC_AHB1ENR => RCC_BASE + 0x30
  | RCC_APB2ENR => RCC_BASE + 0x44
  | SYSTICK_CTRL => SYSTICK_BASE + 0x00
  | SYSTICK_RELOAD => SYSTICK_BASE + 0x04
  | SYSTICK_CURRENT => SYSTICK_BASE + 0x08
  | SYSCFG_EXTICR4 => SYSCFG_BASE + 0x14
  | EXTI_IMR => EXTI_BASE + 0x00
  | EXTI_EMR => EXTI_BASE + 0x04
  | EXTI_RTSR => EXTI_BASE + 0x08
  | EXTI_FTSR => EXTI_BASE + 0x0C
  | EXTI_PR => EXTI_BASE + 0x14
  | NVIC_ISER1 => NVIC_BASE + 0x04
  | GPIOA_MODER => GPIOA_BASE + 0x00
  | GPIOA_OTYPER => GPIOA_BASE + 0x04
  | GPIOA_OSPEEDER => GPIOA_BASE + 0x08
  | GPIOA_PUPDR => GPIOA_BASE + 0x0C
  | GPIOA_ODR => GPIOA_BASE + 0x14
  | GPIOC_MODER => GPIOC_BASE + 0x00
  | GPIOC_PUPDR => GPIOC_BASE + 0x0C
  end.

Definition Reg_eq_dec (a b : Reg) : {a = b} + {a <> b}.
Proof. decide equality. Defined.

Definition Reg_eqb (a b : Reg) : bool :=
  if Reg_eq_dec a b then true else false.

(** ** Machine integers *)

(** Conversion to [uint32_t] / [uint8_t]: reduction modulo 2^32 / 2^8. *)
Definition u32 (x : Z) : Z := x mod 2 ^ 32.
Definition u8 (x : Z) : Z := x mod 2 ^ 8.

(** ** Machine state *)

(** The register file and the global [speed]. *)
Record Machine : Type := mkMachine {
  regs : Reg -> Z;
  speed : Z
}.

(** A machine whose cells hold values of their C types. *)
Definition wf_machine (m : Machine) : Prop :=
  (forall r, 0 <= regs m r < 2 ^ 32) /\ 0 <= speed m < 2 ^ 8.

(** The functions of the translation unit. *)
Inductive Fn : Set :=
| F_main | F_RCC_Init | F_GPIOA_Init | F_GPIOC_Init
| F_SysTick_Init | F_SysTick_Set_Counter | F_EXTI13_Init
| F_SysTick_Handler | F_EXTI15_10_IRQHandler.

(** What a run leaves behind, in program order: volatile register reads
    (with the value read) and writes (with the value put on the bus),
    volatile accesses to [speed], and function entries with their
    arguments. *)
Inductive Event : Type :=
| EvRead (r : Reg) (v : Z)
| EvWrite (r : Reg) (v : Z)
| EvLoadSpeed (v : Z)
| EvStoreSpeed (v : Z)
| EvCall (f : Fn) (args : list Z).

(** ** The device side of a register write

    Every register is plain 32-bit storage except the EXTI pending
    register: its bits are write-1-to-clear, which is what the handler's
    "Clear pending interrupt" (main.c line 155) relies on.  A write of [v]
    clears the bits set in [v] and leaves the others as they were. *)
Definition store (r : Reg) (old v : Z) : Z :=
  match r with
  | EXTI_PR => Z.land old (u32 (Z.lnot v))
  | _ => v
  end.

Definition upd (f : Reg -> Z) (r : Reg) (v : Z) : Reg -> Z :=
  fun r' => if Reg_eqb r r' then v else f r'.

(** ** The monad: state passing with an access log *)

Record Res (A : Type) : Type := mkRes {
  val : A;
  mach : Machine;
  out : list Event
}.
Arguments mkRes {A} _ _ _.
Arguments val {A} _.
Arguments mach {A} _.
Arguments out {A} _.

Definition M (A : Type) : Type := Machine -> Res A.

Definition ret {A : Type} (a : A) : M A :=
  fun m => mkRes a m [].

Definition bind {A B : Type} (c : M A) (k : A -> M B) : M B :=
  fun m =>
    let r1 := c m in
    let r2 := k (val r1) (mach r1) in
    mkRes (val r2) (mach r2) (out r1 ++ out r2).

Notation "x <- c ;; k" := (bind c (fun x => k))
  (at level 61, c at next level, right associativity).
Notation "c ;; k" := (bind c (fun _ => k))
  (at level 61, right associativity).

(** Volatile accesses. *)
Definition read_reg (r : Reg) : M Z :=
  fun m => mkRes (regs m r) m [EvRead r (regs m r)].

Definition write_reg (r : Reg) (v : Z) : M unit :=
  fun m =>
    mkRes tt (mkMachine (upd (regs m) r (store r (regs m r) v)) (speed m))
          [EvWrite r v].

Definition load_speed : M Z :=
  fun m => mkRes (speed m) m [EvLoadSpeed (speed m)].

Definition store_speed (v : Z) : M unit :=
  fun m => mkRes tt (mkMachine (regs m) v) [EvStoreSpeed v].

Definition enter (f : Fn) (args : list Z) : M unit :=
  fun m => mkRes tt m [EvCall f args].

(** The compound assignments [R |= c], [R &= c] and [R ^= c] on a volatile
    register: one read, one write.  A negative constant such as
    [~(3 << 10)] is an [int]; [Z.land] with it followed by [u32] is the
    32-bit result of the C expression. *)
Definition or_reg (r : Reg) (c : Z) : M unit :=
  v <- read_reg r ;; write_reg r (u32 (Z.lor v c)).

Definition and_reg (r : Reg) (c : Z) : M unit :=
  v <- read_reg r ;; write_reg r (u32 (Z.land v c)).

Definition xor_reg (r : Reg) (c : Z) : M unit :=
  v <- read_reg r ;; write_reg r (u32 (Z.lxor v c)).

(** [while (cond) body] with fuel: [None] when the fuel runs out with the
    loop still running, [Some tt] when the condition turned false. *)
Fixpoint while_ (fuel : nat) (cond : M bool) (body : M unit)
  : M (option unit) :=
  match fuel with
  | O => ret None
  | S n =>
      c <- cond ;;
      if c then (body ;; while_ n cond body) else ret (Some tt)
  end.

(** ** Peripheral initialisation (main.c, lines 89-142) *)

Definition RCC_Init : M unit :=
  enter F_RCC_Init [] ;;
  or_reg RCC_AHB1ENR (Z.shiftl 1 0) ;;
  or_reg RCC_AHB1ENR (Z.shiftl 1 2) ;;
  or_reg RCC_APB2ENR (Z.shiftl 1 14).

Definition GPIOA_Init : M unit :=
  enter F_GPIOA_Init [] ;;
  and_reg GPIOA_MODER (Z.lnot (Z.shiftl 3 (5 * 2))) ;;
  or_reg GPIOA_MODER (Z.shiftl 1 (5 * 2)) ;;
  and_reg GPIOA_OTYPER (Z.lnot (Z.shiftl 1 5)) ;;
  and_reg GPIOA_OSPEEDER (Z.lnot (Z.shiftl 3 (5 * 2))) ;;
  and_reg GPIOA_PUPDR (Z.lnot (Z.shiftl 3 (5 * 2))).

Definition GPIOC_Init : M unit :=
  enter F_GPIOC_Init [] ;;
  and_reg GPIOC_MODER (Z.lnot (Z.shiftl 3 (13 * 2))) ;;
  and_reg GPIOC_PUPDR (Z.lnot (Z.shiftl 3 (13 * 2))) ;;
  or_reg GPIOC_PUPDR (Z.shiftl 1 (13 * 2)).

Definition SysTick_Set_Counter (ticks : Z) : M unit :=
  enter F_SysTick_Set_Counter [ticks] ;;
  write_reg SYSTICK_RELOAD (u32 (ticks - 1)) ;;
  write_reg SYSTICK_CURRENT 0.

Definition SysTick_Init (ticks : Z) : M unit :=
  enter F_SysTick_Init [ticks] ;;
  SysTick_Set_Counter ticks ;;
  or_reg SYSTICK_CTRL (Z.shiftl 1 2) ;;
  or_reg SYSTICK_CTRL (Z.shiftl 1 1) ;;
  or_reg SYSTICK_CTRL (Z.shiftl 1 0).

Definition EXTI13_Init : M unit :=
  enter F_EXTI13_Init [] ;;
  or_reg NVIC_ISER1 (Z.shiftl 1 (40 - 32)) ;;
  and_reg SYSCFG_EXTICR4 (Z.lnot (Z.shiftl 0xF 4)) ;;
  or_reg SYSCFG_EXTICR4 (Z.shiftl 0x2 4) ;;
  and_reg EXTI_EMR (Z.lnot (Z.shiftl 1 13)) ;;
  and_reg EXTI_RTSR (Z.lnot (Z.shiftl 1 13)) ;;
  or_reg EXTI_FTSR (Z.shiftl 1 13) ;;
  or_reg EXTI_IMR (Z.shiftl 1 13).

(** ** Interrupt service routines (main.c, lines 147-171) *)

Definition SysTick_Handler : M unit :=
  enter F_SysTick_Handler [] ;;
  xor_reg GPIOA_ODR (Z.shiftl 1 5).

(** [speed] is volatile: it is loaded for the right-hand side of the
    assignment, stored, and loaded again for the [switch].  [%] on the
    promoted [int] is C's truncating remainder, [Z.rem].  The [switch] has
    no [default]: a value other than 1, 2, 3 falls through and does
    nothing. *)
Definition EXTI15_10_IRQHandler : M unit :=
  enter F_EXTI15_10_IRQHandler [] ;;
  or_reg EXTI_PR (Z.shiftl 1 13) ;;
  s <- load_speed ;;
  store_speed (u8 (Z.rem s 3 + 1)) ;;
  sw <- load_speed ;;
  if sw =? 1 then SysTick_Set_Counter HIGH_SPEED
  else if sw =? 2 then SysTick_Set_Counter MEDIUM_SPEED
  else if sw =? 3 then SysTick_Set_Counter LOW_SPEED
  else ret tt.

(** ** main (main.c, lines 75-84)

    [None]: the fuel ran out inside [while (1);].  [Some 0]: control left
    the loop and fell off the end of [main]. *)
Definition main (fuel : nat) : M (option Z) :=
  enter F_main [] ;;
  RCC_Init ;;
  GPIOA_Init ;;
  GPIOC_Init ;;
  SysTick_Init HIGH_SPEED ;;
  EXTI13_Init ;;
  r <- while_ fuel (ret (negb (1 =? 0))) (ret tt) ;;
  match r with
  | Some _ => ret (Some 0)
  | None => ret None
  end.

(** ** Reset and interrupt delivery *)

(** State at the entry of [main]: the registers hold whatever the hardware
    left in them, [speed] holds its initialiser (main.c line 62). *)
Definition power_on (hw : Reg -> Z) : Machine := mkMachine hw 1.

(** The machine once [main] has been running for [fuel] loop turns. *)
Definition startup (fuel : nat) (hw : Reg -> Z) : Machine :=
  mach (main fuel (power_on hw)).

Inductive Irq : Set := IrqSysTick | IrqEXTI15_10.

Definition isr (i : Irq) : M unit :=
  match i with
  | IrqSysTick => SysTick_Handler
  | IrqEXTI15_10 => EXTI15_10_IRQHandler
  end.

(** Interrupts served one after the other, each handler run to completion. *)
Fixpoint serve (l : list Irq) : M unit :=
  match l with
  | [] => ret tt
  | i :: l' => isr i ;; serve l'
  end.

(** ** The speed selector as the handler encodes it

    [speed] is 1, 2 or 3 ("Current blink speed state (1 to 3)"); the
    [switch] pairs 1 with [HIGH_SPEED], 2 with [MEDIUM_SPEED] and 3 with
    [LOW_SPEED]. *)
Inductive Speed : Set := Fast | Medium | Slow.

Definition speed_code (s : Speed) : Z :=
  match s with Fast => 1 | Medium => 2 | Slow => 3 end.

Definition decode_speed (z : Z) : option Speed :=
  if z =? 1 then Some Fast
  else if z =? 2 then Some Medium
  else if z =? 3 then Some Slow
  else None.

Definition speed_count (s : Speed) : Z :=
  match s with
  | Fast => HIGH_SPEED
  | Medium => MEDIUM_SPEED
  | Slow => LOW_SPEED
  end.

Definition next_speed (s : Speed) : Speed :=
  match s with Fast => Medium | Medium => Slow | Slow => Fast end.

(** The right-hand side of [speed = (speed % 3) + 1], converted to the
    type of [speed]. *)
Definition bump (s : Z) : Z := u8 (Z.rem s 3 + 1).

(** The reload register holds the count of the current speed. *)
Definition reload_is_count (m : Machine) : bool :=
  match decode_speed (speed m) with
  | Some s => regs m SYSTICK_RELOAD =? speed_count s
  | None => false
  end.

(** The reload register holds what [SysTick_Set_Counter] writes for the
    count of the current speed. *)
Definition reload_is_count_less_1 (m : Machine) : bool :=
  match decode_speed (speed m) with
  | Some s => regs m SYSTICK_RELOAD =? speed_count s - 1
  | None => false
  end.

(** [n] button interrupts in a row. *)
Definition presses (n : nat) : list Irq := repeat IrqEXTI15_10 n.

(** ** Reading logs *)

Definition writes_to (r : Reg) (t : list Event) : list Z :=
  flat_map (fun e => match e with
                     | EvWrite r' v => if Reg_eqb r r' then [v] else []
                     | _ => []
                     end) t.

Definition calls (t : list Event) : list (Fn * list Z) :=
  flat_map (fun e => match e with EvCall f a => [(f, a)] | _ => [] end) t.

Definition written_regs (t : list Event) : list Reg :=
  flat_map (fun e => match e with EvWrite r _ => [r] | _ => [] end) t.

Definition is_call (f : Fn) (e : Event) : bool :=
  match e, f with
  | EvCall F_main _, F_main
  | EvCall F_RCC_Init _, F_RCC_Init
  | EvCall F_GPIOA_Init _, F_GPIOA_Init
  | EvCall F_GPIOC_Init _, F_GPIOC_Init
  | EvCall F_SysTick_Init _, F_SysTick_Init
  | EvCall F_SysTick_Set_Counter _, F_SysTick_Set_Counter
  | EvCall F_EXTI13_Init _, F_EXTI13_Init
  | EvCall F_SysTick_Handler _, F_SysTick_Handler
  | EvCall F_EXTI15_10_IRQHandler _, F_EXTI15_10_IRQHandler => true
  | _, _ => false
  end.

(** The registers [EXTI13_Init] programs: interrupt controller, pin mux and
    the EXTI line registers. *)
Definition edge_source_reg (r : Reg) : bool :=
  match r with
  | NVIC_ISER1 | SYSCFG_EXTICR4
  | EXTI_IMR | EXTI_EMR | EXTI_RTSR | EXTI_FTSR | EXTI_PR => true
  | _ => false
  end.

(** The registers of the LED pin's port and of the tick source. *)
Definition output_or_tick_reg (r : Reg) : bool :=
  match r with
  | GPIOA_MODER | GPIOA_OTYPER | GPIOA_OSPEEDER | GPIOA_PUPDR | GPIOA_ODR
  | SYSTICK_CTRL | SYSTICK_RELOAD | SYSTICK_CURRENT => true
  | _ => false
  end.

Definition accesses (p : Reg -> bool) (e : Event) : bool :=
  match e with
  | EvRead r _ | EvWrite r _ => p r
  | _ => false
  end.

(** The part of a log before the first event satisfying [p], and the part
    from that event on. *)
Fixpoint before_first (p : Event -> bool) (t : list Event) : list Event :=
  match t with
  | [] => []
  | e :: t' => if p e then [] else e :: before_first p t'
  end.

Fixpoint from_first (p : Event -> bool) (t : list Event) : list Event :=
  match t with
  | [] => []
  | e :: t' => if p e then t else from_first p t'
  end.

Definition zero_regs : Reg -> Z := fun _ => 0.

(** ** Reading runs of interrupts *)

Definition Irq_eqb (a b : Irq) : bool :=
  match a, b with
  | IrqSysTick, IrqSysTick | IrqEXTI15_10, IrqEXTI15_10 => true
  | _, _ => false
  end.

(** How many times [i] occurs in a run. *)
Definition count_irq (i : Irq) (l : list Irq) : nat :=
  length (filter (Irq_eqb i) l).

(** The registers the two handlers write. *)
Definition isr_writes (r : Reg) : bool :=
  match r with
  | GPIOA_ODR | EXTI_PR | SYSTICK_RELOAD | SYSTICK_CURRENT => true
  | _ => false
  end.

(** A machine with the pending register replaced. *)
Definition with_pending (pr : Z) (m : Machine) : Machine :=
  mkMachine (upd (regs m) EXTI_PR pr) (speed m).

(** The configuration the five initialisation functions write, bit by
    bit: clocks on (lines 91-93), PA5 push-pull output (99-103), PC13
    input with pull-up (109-111), tick source running from the processor
    clock with its interrupt (118-120), EXTI13 on port C, falling edge,
    unmasked, IRQ 40 enabled (133-141). *)
Definition configured (m : Machine) : bool :=
  let bit r i := Z.testbit (regs m r) i in
  bit RCC_AHB1ENR 0 && bit RCC_AHB1ENR 2 && bit RCC_APB2ENR 14
  && bit GPIOA_MODER 10 && negb (bit GPIOA_MODER 11)
  && negb (bit GPIOA_OTYPER 5)
  && negb (bit GPIOA_OSPEEDER 10) && negb (bit GPIOA_OSPEEDER 11)
  && negb (bit GPIOA_PUPDR 10) && negb (bit GPIOA_PUPDR 11)
  && negb (bit GPIOC_MODER 26) && negb (bit GPIOC_MODER 27)
  && bit GPIOC_PUPDR 26 && negb (bit GPIOC_PUPDR 27)
  && bit SYSTICK_CTRL 0 && bit SYSTICK_CTRL 1 && bit SYSTICK_CTRL 2
  && bit NVIC_ISER1 8
  && negb (bit SYSCFG_EXTICR4 4) && bit SYSCFG_EXTICR4 5
  && negb (bit SYSCFG_EXTICR4 6) && negb (bit SYSCFG_EXTICR4 7)
  && negb (bit EXTI_EMR 13) && negb (bit EXTI_RTSR 13)
  && bit EXTI_FTSR 13 && bit EXTI_IMR 13.

(** ** Replaying a log

    The machine a log leads to: writes and stores applied in order, as
    [write_reg] and [store_speed] apply them; reads, loads and calls
    change nothing. *)
Definition apply_event (e : Event) (m : Machine) : Machine :=
  match e with
  | EvWrite r v => mkMachine (upd (regs m) r (store r (regs m r) v)) (speed m)
  | EvStoreSpeed v => mkMachine (regs m) v
  | _ => m
  end.

Definition replay (t : list Event) (m : Machine) : Machine :=
  fold_left (fun m' e => apply_event e m') t m.

(** A computation whose log accounts for its whole effect on the
    machine. *)
Definition logged {A : Type} (c : M A) : Prop :=
  forall m, replay (out (c m)) m = mach (c m).

(** What the interrupt handlers rely on: PA5 a push-pull output with no
    pull and low speed (lines 99-103), the tick source loaded for
    [HIGH_SPEED], counting from the processor clock with its interrupt
    enabled (lines 117-120, 126-127). *)
Definition output_and_tick_configured (m : Machine) : bool :=
  let bit r i := Z.testbit (regs m r) i in
  bit GPIOA_MODER 10 && negb (bit GPIOA_MODER 11)
  && negb (bit GPIOA_OTYPER 5)
  && negb (bit GPIOA_OSPEEDER 10) && negb (bit GPIOA_OSPEEDER 11)
  && negb (bit GPIOA_PUPDR 10) && negb (bit GPIOA_PUPDR 11)
  && (regs m SYSTICK_RELOAD =? HIGH_SPEED - 1)
  && (regs m SYSTICK_CURRENT =? 0)
  && bit SYSTICK_CTRL 0 && bit SYSTICK_CTRL 1 && bit SYSTICK_CTRL 2.

(** ** main up to its last call

    The machine the first four initialisation calls of [main] build, on
    which [EXTI13_Init] is then run, and the log up to that point: each
    function runs on the machine the previous one left. *)
Definition machine_at_EXTI13_Init (m : Machine) : Machine :=
  mach (SysTick_Init HIGH_SPEED
          (mach (GPIOC_Init (mach (GPIOA_Init (mach (RCC_Init m))))))).

Definition log_before_EXTI13_Init (m : Machine) : list Event :=
  EvCall F_main []
  :: out (RCC_Init m)
  ++ out (GPIOA_Init (mach (RCC_Init m)))
  ++ out (GPIOC_Init (mach (GPIOA_Init (mach (RCC_Init m)))))
  ++ out (SysTick_Init HIGH_SPEED
            (mach (GPIOC_Init (mach (GPIOA_Init (mach (RCC_Init m))))))).

(** * Properties *)

(** ** Bits of machine integers *)

Lemma u32_testbit (x i : Z) :
  Z.testbit (u32 x) i = (i <? 32) && Z.testbit x i.
Proof. unfold u32. apply Z.testbit_mod_pow2. lia. Qed.

Lemma u32_small (x : Z) : 0 <= x < 2 ^ 32 -> u32 x = x.
Proof. intros H. unfold u32. apply Z.mod_small. exact H. Qed.

Lemma testbit_high (x i : Z) :
  0 <= x < 2 ^ 32 -> 32 <= i -> Z.testbit x i = false.
Proof.
  intros Hx Hi. rewrite <- (u32_small x Hx), u32_testbit.
  replace (i <? 32) with false by (symmetry; apply Z.ltb_ge; lia).
  reflexivity.
Qed.

Lemma shiftl_1_testbit (n i : Z) :
  0 <= n -> Z.testbit (Z.shiftl 1 n) i = (n =? i).
Proof.
  intros Hn. rewrite Z.shiftl_1_l. apply Z.pow2_bits_eqb. exact Hn.
Qed.

(** Bitwise equalities and bit values: push [Z.testbit] through the
    operations, then decide the boolean formula. *)
Ltac bits :=
  repeat first
    [ rewrite u32_testbit | rewrite Z.lor_spec | rewrite Z.land_spec
    | rewrite Z.lxor_spec | rewrite Z.lnot_spec by assumption
    | rewrite Z.bits_0 ].

(** ** Running the monad *)

Lemma upd_same (f : Reg -> Z) (r : Reg) (v : Z) : upd f r v r = v.
Proof. unfold upd, Reg_eqb. destruct (Reg_eq_dec r r); congruence. Qed.

Lemma upd_other (f : Reg -> Z) (r r' : Reg) (v : Z) :
  r' <> r -> upd f r v r' = f r'.
Proof. intros H. unfold upd, Reg_eqb. destruct (Reg_eq_dec r r'); congruence. Qed.

Lemma addr_injective (a b : Reg) : addr a = addr b -> a = b.
Proof. destruct a, b; vm_compute; congruence. Qed.

(** Unfold a straight-line computation down to its result record. *)
Ltac run :=
  cbv [main RCC_Init GPIOA_Init GPIOC_Init SysTick_Init SysTick_Set_Counter
       EXTI13_Init SysTick_Handler EXTI15_10_IRQHandler
       or_reg and_reg xor_reg read_reg write_reg load_speed store_speed
       enter bind ret val mach out app store power_on startup while_];
  cbn [regs speed].

(** The idle loop [while (1);] never leaves and touches nothing. *)
Lemma idle_loop (fuel : nat) (m : Machine) :
  while_ fuel (ret (negb (1 =? 0))) (ret tt) m = mkRes None m [].
Proof.
  induction fuel as [|n IH]; [reflexivity|].
  cbn [while_]. cbv [bind ret val mach out negb Z.eqb app] in *.
  rewrite IH. reflexivity.
Qed.

Lemma bind_congr {A B : Type} (c : M A) (k1 k2 : A -> M B) (m : Machine) :
  (forall a m', k1 a m' = k2 a m') -> bind c k1 m = bind c k2 m.
Proof. intros H. unfold bind. rewrite H. reflexivity. Qed.

(** The fuel only feeds the idle loop: [main] does the same with none. *)
Lemma main_unfuelled (fuel : nat) (m : Machine) :
  main fuel m = main 0 m.
Proof.
  unfold main. do 6 (apply bind_congr; intros _ ?).
  unfold bind. rewrite !idle_loop. reflexivity.
Qed.

(** Read a register back through the updates made to the file. *)
Ltac lookup :=
  repeat first [ rewrite upd_same
               | rewrite upd_other by first [assumption | discriminate] ].

(** ** The periodic tick source *)

(** C4.  For every [ticks] from 1 up to the largest [uint32_t],
    [SysTick_Set_Counter ticks] performs exactly two register writes, in
    this order: [ticks - 1] to the reload register and 0 to the
    current-count register.  Afterwards those two registers hold these
    values, every other register holds what it held before, and [speed]
    is unchanged. *)
Theorem SysTick_Set_Counter_spec (ticks : Z) (m : Machine) :
  1 <= ticks < 2 ^ 32 ->
  out (SysTick_Set_Counter ticks m) =
    [EvCall F_SysTick_Set_Counter [ticks];
     EvWrite SYSTICK_RELOAD (ticks - 1);
     EvWrite SYSTICK_CURRENT 0]
  /\ regs (mach (SysTick_Set_Counter ticks m)) SYSTICK_RELOAD = ticks - 1
  /\ regs (mach (SysTick_Set_Counter ticks m)) SYSTICK_CURRENT = 0
  /\ (forall r, r <> SYSTICK_RELOAD -> r <> SYSTICK_CURRENT ->
        regs (mach (SysTick_Set_Counter ticks m)) r = regs m r)
  /\ speed (mach (SysTick_Set_Counter ticks m)) = speed m.
Proof.
  intros Ht.
  assert (Hw : u32 (ticks - 1) = ticks - 1) by (apply u32_small; lia).
  run. rewrite Hw. repeat split; intros; lookup; reflexivity.
Qed.

Lemma SysTick_Set_Counter_spec_witness :
  1 <= 1 < 2 ^ 32
  /\ regs (mach (SysTick_Set_Counter 1 (power_on zero_regs))) SYSTICK_RELOAD
     = 1 - 1.
Proof.
  assert (H : 1 <= 1 < 2 ^ 32) by lia.
  split; [exact H|].
  exact (proj1 (proj2 (SysTick_Set_Counter_spec 1 (power_on zero_regs) H))).
Defined.

(** At [ticks = 0] the subtraction wraps: the reload register receives the
    largest 32-bit value. *)
Lemma SysTick_Set_Counter_zero (m : Machine) :
  regs (mach (SysTick_Set_Counter 0 m)) SYSTICK_RELOAD = 2 ^ 32 - 1.
Proof. run. lookup. reflexivity. Qed.

(** ** The speed-change handler in closed form *)

Lemma bump_code (s : Speed) : bump (speed_code s) = speed_code (next_speed s).
Proof. destruct s; reflexivity. Qed.

Lemma bump_range (s : Z) : 0 <= s < 2 ^ 8 -> 1 <= bump s <= 3.
Proof.
  intros Hs. unfold bump, u8.
  rewrite Z.rem_mod_nonneg by lia.
  assert (H3 : 0 <= s mod 3 < 3) by (apply Z.mod_pos_bound; lia).
  rewrite Z.mod_small by lia. lia.
Qed.

Lemma decode_code (s : Speed) : decode_speed (speed_code s) = Some s.
Proof. destruct s; reflexivity. Qed.

Lemma decode_some (z : Z) (s : Speed) :
  decode_speed z = Some s -> z = speed_code s.
Proof.
  unfold decode_speed.
  destruct (Z.eqb_spec z 1); [intros [= <-]; assumption|].
  destruct (Z.eqb_spec z 2); [intros [= <-]; assumption|].
  destruct (Z.eqb_spec z 3); [intros [= <-]; assumption|].
  discriminate.
Qed.

Lemma decode_in_range (z : Z) :
  1 <= z <= 3 -> exists s, decode_speed z = Some s.
Proof.
  intros H.
  assert (Hz : z = 1 \/ z = 2 \/ z = 3) by lia.
  destruct Hz as [-> | [-> | ->]]; eexists; reflexivity.
Qed.

(** When the new speed is one of the three codes, the handler is this
    straight line. *)
Lemma EXTI15_10_IRQHandler_run (m : Machine) (s' : Speed) :
  bump (speed m) = speed_code s' ->
  EXTI15_10_IRQHandler m =
    mkRes tt
      (mkMachine
         (upd (upd (upd (regs m) EXTI_PR
                      (Z.land (regs m EXTI_PR)
                         (u32 (Z.lnot (u32 (Z.lor (regs m EXTI_PR)
                                              (Z.shiftl 1 13)))))))
                 SYSTICK_RELOAD (speed_count s' - 1))
            SYSTICK_CURRENT 0)
         (speed_code s'))
      [EvCall F_EXTI15_10_IRQHandler [];
       EvRead EXTI_PR (regs m EXTI_PR);
       EvWrite EXTI_PR (u32 (Z.lor (regs m EXTI_PR) (Z.shiftl 1 13)));
       EvLoadSpeed (speed m);
       EvStoreSpeed (speed_code s');
       EvLoadSpeed (speed_code s');
       EvCall F_SysTick_Set_Counter [speed_count s'];
       EvWrite SYSTICK_RELOAD (speed_count s' - 1);
       EvWrite SYSTICK_CURRENT 0].
Proof.
  intros H. unfold EXTI15_10_IRQHandler. fold (bump (speed m)).
  run. fold (bump (speed m)). rewrite H.
  destruct s'; reflexivity.
Qed.

(** The pending register after the handler's read-modify-write: every bit
    that was set has been written back as 1 and is therefore cleared. *)
Lemma pending_all_cleared (v : Z) :
  Z.land v (u32 (Z.lnot (u32 (Z.lor v (Z.shiftl 1 13))))) = 0.
Proof.
  apply Z.bits_inj'. intros i Hi. bits.
  destruct (Z.testbit v i), (i <? 32), (Z.testbit (Z.shiftl 1 13) i);
    reflexivity.
Qed.

Lemma new_speed_of_wf (m : Machine) :
  0 <= speed m < 2 ^ 8 -> exists s', bump (speed m) = speed_code s'.
Proof.
  intros H. destruct (decode_in_range _ (bump_range _ H)) as [s' Hs'].
  exists s'. apply decode_some. exact Hs'.
Qed.

(** ** The speed-change handler *)

(** C2.  Started with [speed] holding the code of a speed [s], the handler
    does, in this order and nothing else: one read-modify-write of the
    pending register whose written value has bit 13 set (the only write
    to that register), the load of [speed], the store of the code of the
    successor of [s], the load for the [switch], and the call of
    [SysTick_Set_Counter] with the successor's count, which writes the
    reload and the current-count registers.  On return [speed] is the
    successor's code and bit 13 of the pending register is clear. *)
Theorem EXTI15_10_IRQHandler_sequence (m : Machine) (s : Speed) :
  speed m = speed_code s ->
  out (EXTI15_10_IRQHandler m) =
    [EvCall F_EXTI15_10_IRQHandler [];
     EvRead EXTI_PR (regs m EXTI_PR);
     EvWrite EXTI_PR (u32 (Z.lor (regs m EXTI_PR) (Z.shiftl 1 13)));
     EvLoadSpeed (speed_code s);
     EvStoreSpeed (speed_code (next_speed s));
     EvLoadSpeed (speed_code (next_speed s));
     EvCall F_SysTick_Set_Counter [speed_count (next_speed s)];
     EvWrite SYSTICK_RELOAD (speed_count (next_speed s) - 1);
     EvWrite SYSTICK_CURRENT 0]
  /\ Z.testbit (u32 (Z.lor (regs m EXTI_PR) (Z.shiftl 1 13))) 13 = true
  /\ length (writes_to EXTI_PR (out (EXTI15_10_IRQHandler m))) = 1%nat
  /\ speed (mach (EXTI15_10_IRQHandler m)) = speed_code (next_speed s)
  /\ Z.testbit (regs (mach (EXTI15_10_IRQHandler m)) EXTI_PR) 13 = false.
Proof.
  intros Hs.
  assert (Hb : bump (speed m) = speed_code (next_speed s))
    by (rewrite Hs; apply bump_code).
  rewrite (EXTI15_10_IRQHandler_run m _ Hb). cbn [out mach regs speed].
  rewrite Hs. repeat split.
  - bits. rewrite shiftl_1_testbit by lia. apply orb_true_r.
  - lookup. rewrite pending_all_cleared. apply Z.bits_0.
Qed.

Lemma EXTI15_10_IRQHandler_sequence_witness :
  speed (power_on (upd zero_regs EXTI_PR (2 ^ 13))) = speed_code Fast
  /\ speed (mach (EXTI15_10_IRQHandler
                    (power_on (upd zero_regs EXTI_PR (2 ^ 13)))))
     = speed_code Medium.
Proof.
  assert (H : speed (power_on (upd zero_regs EXTI_PR (2 ^ 13)))
              = speed_code Fast) by reflexivity.
  split; [exact H|].
  exact (proj1 (proj2 (proj2 (proj2
           (EXTI15_10_IRQHandler_sequence _ Fast H))))).
Defined.

(** C9.  The handler's clear of the pending flag is a read-modify-write:
    the one value it writes to the pending register is the value read
    with bit 13 or-ed in.  So for every line [i] that was pending at the
    read, line 13 or not, the written value has bit [i] set, and under
    write-1-to-clear that line is no longer pending when the handler
    returns: the whole pending register reads 0. *)
Theorem EXTI_PR_clear_hits_every_pending_line (m : Machine) (i : Z) :
  0 <= i < 32 ->
  Z.testbit (regs m EXTI_PR) i = true ->
  writes_to EXTI_PR (out (EXTI15_10_IRQHandler m)) =
    [u32 (Z.lor (regs m EXTI_PR) (Z.shiftl 1 13))]
  /\ Z.testbit (u32 (Z.lor (regs m EXTI_PR) (Z.shiftl 1 13))) i = true
  /\ Z.testbit (regs (mach (EXTI15_10_IRQHandler m)) EXTI_PR) i = false
  /\ regs (mach (EXTI15_10_IRQHandler m)) EXTI_PR = 0.
Proof.
  intros Hi Hp.
  assert (Hreg : regs (mach (EXTI15_10_IRQHandler m)) EXTI_PR = 0).
  { run.
    repeat match goal with
           | |- context [if ?a =? ?b then _ else _] => destruct (a =? b)
           end;
      cbn [regs speed]; lookup; apply pending_all_cleared. }
  repeat split.
  - run.
    repeat match goal with
           | |- context [if ?a =? ?b then _ else _] => destruct (a =? b)
           end;
      reflexivity.
  - bits. rewrite Hp.
    replace (i <? 32) with true by (symmetry; apply Z.ltb_lt; lia).
    reflexivity.
  - rewrite Hreg. apply Z.bits_0.
  - exact Hreg.
Qed.

Lemma EXTI_PR_clear_hits_every_pending_line_witness :
  (0 <= 10 < 32
   /\ Z.testbit (regs (power_on (upd zero_regs EXTI_PR (2 ^ 13 + 2 ^ 10)))
                   EXTI_PR) 10 = true)
  /\ Z.testbit
       (regs (mach (EXTI15_10_IRQHandler
                      (power_on (upd zero_regs EXTI_PR (2 ^ 13 + 2 ^ 10)))))
             EXTI_PR) 10 = false.
Proof.
  assert (Hi : 0 <= 10 < 32) by lia.
  assert (Hp : Z.testbit
                 (regs (power_on (upd zero_regs EXTI_PR (2 ^ 13 + 2 ^ 10)))
                       EXTI_PR) 10 = true) by reflexivity.
  split; [split; [exact Hi | exact Hp]|].
  exact (proj1 (proj2 (proj2
           (EXTI_PR_clear_hits_every_pending_line _ 10 Hi Hp)))).
Defined.

(** ** Runs of interrupts *)

Lemma serve_cons (i : Irq) (l : list Irq) (m : Machine) :
  mach (serve (i :: l) m) = mach (serve l (mach (isr i m))).
Proof. reflexivity. Qed.

Lemma serve_invariant (P : Machine -> Prop) :
  (forall m, P m -> P (mach (SysTick_Handler m))) ->
  (forall m, P m -> P (mach (EXTI15_10_IRQHandler m))) ->
  forall l m, P m -> P (mach (serve l m)).
Proof.
  intros Htick Hbutton l.
  induction l as [|i l IH]; intros m Hm; [exact Hm|].
  rewrite serve_cons. apply IH. destruct i; [apply Htick | apply Hbutton]; exact Hm.
Qed.

Lemma SysTick_Handler_keeps (m : Machine) :
  speed (mach (SysTick_Handler m)) = speed m
  /\ regs (mach (SysTick_Handler m)) SYSTICK_RELOAD = regs m SYSTICK_RELOAD.
Proof. run. lookup. split; reflexivity. Qed.

Lemma startup_state (fuel : nat) (hw : Reg -> Z) :
  speed (startup fuel hw) = 1
  /\ regs (startup fuel hw) SYSTICK_RELOAD = HIGH_SPEED - 1
  /\ regs (startup fuel hw) SYSTICK_CURRENT = 0.
Proof.
  unfold startup. rewrite main_unfuelled. vm_compute.
  repeat split.
Qed.

Lemma reachable_speed (fuel : nat) (hw : Reg -> Z) (irqs : list Irq) :
  1 <= speed (mach (serve irqs (startup fuel hw))) <= 3.
Proof.
  apply (serve_invariant (fun m => 1 <= speed m <= 3)).
  - intros m Hm. rewrite (proj1 (SysTick_Handler_keeps m)). exact Hm.
  - intros m Hm. destruct (new_speed_of_wf m) as [s' Hs']; [lia|].
    rewrite (EXTI15_10_IRQHandler_run m s' Hs'). cbn [mach speed].
    destruct s'; cbn [speed_code]; lia.
  - rewrite (proj1 (startup_state fuel hw)). lia.
Qed.

(** C10.  For every [uint8_t] value of [speed], the update
    [(speed % 3) + 1] yields 1, 2 or 3.  Hence after the handler [speed]
    is the code of one of the three speeds, the [switch] takes that case:
    the handler calls [SysTick_Set_Counter] exactly once, with that
    speed's count, and the reload register is rewritten.  In every state
    reached from reset by any run of interrupts [speed] is 1, 2 or 3. *)
Theorem speed_stays_in_1_2_3 (m : Machine) :
  0 <= speed m < 2 ^ 8 ->
  1 <= bump (speed m) <= 3
  /\ speed (mach (EXTI15_10_IRQHandler m)) = bump (speed m)
  /\ (exists s',
        decode_speed (speed (mach (EXTI15_10_IRQHandler m))) = Some s'
        /\ calls (out (EXTI15_10_IRQHandler m)) =
             [(F_EXTI15_10_IRQHandler, []);
              (F_SysTick_Set_Counter, [speed_count s'])]
        /\ writes_to SYSTICK_RELOAD (out (EXTI15_10_IRQHandler m)) =
             [speed_count s' - 1]
        /\ regs (mach (EXTI15_10_IRQHandler m)) SYSTICK_RELOAD =
             speed_count s' - 1)
  /\ (forall fuel hw irqs,
        1 <= speed (mach (serve irqs (startup fuel hw))) <= 3).
Proof.
  intros Hs. split; [apply bump_range; exact Hs|].
  destruct (new_speed_of_wf m Hs) as [s' Hs'].
  rewrite (EXTI15_10_IRQHandler_run m s' Hs'). cbn [mach out regs speed].
  split; [symmetry; exact Hs'|].
  split.
  - exists s'. rewrite decode_code. lookup. repeat split.
  - intros fuel hw irqs. apply reachable_speed.
Qed.

Lemma speed_stays_in_1_2_3_witness :
  0 <= speed (mkMachine zero_regs 255) < 2 ^ 8
  /\ speed (mach (EXTI15_10_IRQHandler (mkMachine zero_regs 255))) = 1.
Proof.
  assert (H : 0 <= speed (mkMachine zero_regs 255) < 2 ^ 8)
    by (cbn [speed]; lia).
  split; [exact H|].
  exact (proj1 (proj2 (speed_stays_in_1_2_3 (mkMachine zero_regs 255) H))).
Defined.

(** ** The tick handler *)

Lemma toggle_in_range (v : Z) :
  0 <= v < 2 ^ 32 -> u32 (Z.lxor v (Z.shiftl 1 5)) = Z.lxor v (Z.shiftl 1 5).
Proof.
  intros Hv. apply Z.bits_inj'. intros i Hi. bits.
  destruct (Z.ltb_spec i 32) as [Hlt|Hge]; [reflexivity|].
  rewrite (testbit_high v i Hv Hge), shiftl_1_testbit by lia.
  destruct (Z.eqb_spec 5 i); [lia | reflexivity].
Qed.

Lemma toggle_twice (v : Z) :
  Z.lxor (Z.lxor v (Z.shiftl 1 5)) (Z.shiftl 1 5) = v.
Proof.
  rewrite Z.lxor_assoc, Z.lxor_nilpotent. apply Z.lxor_0_r.
Qed.

(** C7.  On a machine whose registers hold 32-bit values, the tick handler
    performs exactly one read and one write, both of the output-data
    register of port A, and the written value is the value read with bit 5
    flipped: bit 5 is negated, every other bit of that register, every
    other register and [speed] are unchanged.  Two invocations in a row
    give back the initial registers and [speed]. *)
Theorem SysTick_Handler_frame (m : Machine) :
  wf_machine m ->
  out (SysTick_Handler m) =
    [EvCall F_SysTick_Handler [];
     EvRead GPIOA_ODR (regs m GPIOA_ODR);
     EvWrite GPIOA_ODR (Z.lxor (regs m GPIOA_ODR) (Z.shiftl 1 5))]
  /\ Z.testbit (regs (mach (SysTick_Handler m)) GPIOA_ODR) 5 =
       negb (Z.testbit (regs m GPIOA_ODR) 5)
  /\ (forall i, i <> 5 ->
        Z.testbit (regs (mach (SysTick_Handler m)) GPIOA_ODR) i =
          Z.testbit (regs m GPIOA_ODR) i)
  /\ (forall r, r <> GPIOA_ODR ->
        regs (mach (SysTick_Handler m)) r = regs m r)
  /\ speed (mach (SysTick_Handler m)) = speed m
  /\ (forall r,
        regs (mach (SysTick_Handler (mach (SysTick_Handler m)))) r =
          regs m r)
  /\ speed (mach (SysTick_Handler (mach (SysTick_Handler m)))) = speed m.
Proof.
  intros [Hregs _].
  pose proof (toggle_in_range _ (Hregs GPIOA_ODR)) as Ht.
  run. lookup. rewrite !Ht. lookup.
  assert (Ht2 : u32 (Z.lxor (Z.lxor (regs m GPIOA_ODR) (Z.shiftl 1 5))
                       (Z.shiftl 1 5)) = regs m GPIOA_ODR).
  { rewrite toggle_twice. apply u32_small, Hregs. }
  rewrite Ht2.
  split; [reflexivity|]. split.
  { rewrite Z.lxor_spec, shiftl_1_testbit by lia.
    destruct (Z.testbit (regs m GPIOA_ODR) 5); reflexivity. }
  split.
  { intros i Hi. rewrite Z.lxor_spec.
    destruct (Z.le_gt_cases 0 i) as [Hpos|Hneg].
    - rewrite shiftl_1_testbit by lia.
      destruct (Z.eqb_spec 5 i); [congruence | apply xorb_false_r].
    - rewrite !(Z.testbit_neg_r _ i) by lia. reflexivity. }
  split; [intros r Hr; lookup; reflexivity|].
  split; [reflexivity|].
  split; [|reflexivity].
  intros r. destruct (Reg_eq_dec r GPIOA_ODR) as [->|Hr]; lookup; reflexivity.
Qed.

Lemma SysTick_Handler_frame_witness :
  wf_machine (power_on zero_regs)
  /\ Z.testbit (regs (mach (SysTick_Handler (power_on zero_regs))) GPIOA_ODR) 5
     = negb (Z.testbit (regs (power_on zero_regs) GPIOA_ODR) 5).
Proof.
  assert (H : wf_machine (power_on zero_regs)).
  { split; [intros r|]; cbv [power_on regs speed zero_regs];
      [change (2 ^ 32) with 4294967296 | change (2 ^ 8) with 256]; lia. }
  split; [exact H|].
  exact (proj1 (proj2 (SysTick_Handler_frame (power_on zero_regs) H))).
Defined.

(** ** Clock enable *)

(** C8.  From every register state, running [RCC_Init] twice in a row
    leaves every register (the two clock-enable registers included) and
    [speed] exactly as running it once does. *)
Theorem RCC_Init_idempotent (m : Machine) :
  (forall r, regs (mach ((RCC_Init ;; RCC_Init) m)) r =
             regs (mach (RCC_Init m)) r)
  /\ speed (mach ((RCC_Init ;; RCC_Init) m)) = speed (mach (RCC_Init m)).
Proof.
  split; [|reflexivity].
  intros r. run.
  destruct r; lookup; try reflexivity;
    apply Z.bits_inj'; intros i Hi; bits; btauto.
Qed.

(** ** Startup *)

Lemma before_from_first (p : Event -> bool) (t : list Event) :
  before_first p t ++ from_first p t = t.
Proof.
  induction t as [|e t IH]; [reflexivity|].
  cbn [before_first from_first]. destruct (p e); [reflexivity|].
  cbn [app]. rewrite IH. reflexivity.
Qed.

(** C5.  In the state [main] reaches once its configuration calls are done
    (any number of idle-loop turns later, no interrupt served), [speed] is
    the code of Fast and the tick source has been programmed for
    [HIGH_SPEED]: [SysTick_Set_Counter] was called once, with
    [HIGH_SPEED], the reload register was written once and holds
    [HIGH_SPEED - 1], and the current-count register holds 0. *)
Theorem startup_speed_fast (fuel : nat) (hw : Reg -> Z) :
  speed (startup fuel hw) = speed_code Fast
  /\ decode_speed (speed (startup fuel hw)) = Some Fast
  /\ filter (is_call F_SysTick_Set_Counter) (out (main fuel (power_on hw))) =
       [EvCall F_SysTick_Set_Counter [HIGH_SPEED]]
  /\ writes_to SYSTICK_RELOAD (out (main fuel (power_on hw))) =
       [speed_count Fast - 1]
  /\ regs (startup fuel hw) SYSTICK_RELOAD = speed_count Fast - 1
  /\ regs (startup fuel hw) SYSTICK_CURRENT = 0.
Proof.
  destruct (startup_state fuel hw) as (Hs & Hr & Hc).
  rewrite Hs, Hr, Hc, main_unfuelled. vm_compute.
  repeat split.
Qed.

(** The shape of [main]'s log, values left out: the calls made and the
    registers written, in order; no edge-source register is touched
    before the call of [EXTI13_Init] and no port A or tick-source
    register from that call on; no value is returned. *)
Lemma main_log_shape (fuel : nat) (m : Machine) :
  calls (out (main fuel m)) =
    [(F_main, []); (F_RCC_Init, []); (F_GPIOA_Init, []); (F_GPIOC_Init, []);
     (F_SysTick_Init, [HIGH_SPEED]); (F_SysTick_Set_Counter, [HIGH_SPEED]);
     (F_EXTI13_Init, [])]
  /\ written_regs (out (main fuel m)) =
       [RCC_AHB1ENR; RCC_AHB1ENR; RCC_APB2ENR;
        GPIOA_MODER; GPIOA_MODER; GPIOA_OTYPER; GPIOA_OSPEEDER; GPIOA_PUPDR;
        GPIOC_MODER; GPIOC_PUPDR; GPIOC_PUPDR;
        SYSTICK_RELOAD; SYSTICK_CURRENT;
        SYSTICK_CTRL; SYSTICK_CTRL; SYSTICK_CTRL;
        NVIC_ISER1; SYSCFG_EXTICR4; SYSCFG_EXTICR4;
        EXTI_EMR; EXTI_RTSR; EXTI_FTSR; EXTI_IMR]
  /\ existsb (accesses edge_source_reg)
       (before_first (is_call F_EXTI13_Init) (out (main fuel m))) = false
  /\ calls (before_first (is_call F_EXTI13_Init) (out (main fuel m))) =
       [(F_main, []); (F_RCC_Init, []); (F_GPIOA_Init, []);
        (F_GPIOC_Init, []); (F_SysTick_Init, [HIGH_SPEED]);
        (F_SysTick_Set_Counter, [HIGH_SPEED])]
  /\ existsb (accesses output_or_tick_reg)
       (from_first (is_call F_EXTI13_Init) (out (main fuel m))) = false
  /\ val (main fuel m) = None.
Proof.
  rewrite main_unfuelled. vm_compute. repeat split.
Qed.

(** ** The reload register follows the speed *)

Lemma reload_follows_speed (fuel : nat) (hw : Reg -> Z) (irqs : list Irq) :
  exists s,
    speed (mach (serve irqs (startup fuel hw))) = speed_code s
    /\ regs (mach (serve irqs (startup fuel hw))) SYSTICK_RELOAD =
         speed_count s - 1.
Proof.
  apply (serve_invariant
           (fun m => exists s, speed m = speed_code s
                               /\ regs m SYSTICK_RELOAD = speed_count s - 1)).
  - intros m Hm. destruct (SysTick_Handler_keeps m) as [-> ->]. exact Hm.
  - intros m [s [Hs _]].
    assert (Hb : bump (speed m) = speed_code (next_speed s))
      by (rewrite Hs; apply bump_code).
    rewrite (EXTI15_10_IRQHandler_run m _ Hb). cbn [mach regs speed].
    exists (next_speed s). lookup. split; reflexivity.
  - destruct (startup_state fuel hw) as (Hs & Hr & _).
    exists Fast. rewrite Hs, Hr. split; reflexivity.
Qed.

(** C1, as stated, fails: right after startup from all-zero registers, and
    again after one button interrupt, the reload register is not the count
    of the current speed (it is that count minus one). *)
Lemma reload_is_not_the_count :
  reload_is_count (startup 0 zero_regs) = false
  /\ regs (startup 0 zero_regs) SYSTICK_RELOAD <> HIGH_SPEED
  /\ reload_is_count
       (mach (EXTI15_10_IRQHandler (startup 0 zero_regs))) = false.
Proof.
  split; [reflexivity|]. split; [|reflexivity].
  vm_compute. discriminate.
Qed.

(** C1, amended.  After startup and after every further interrupt served
    (tick or button, in any number and order), [speed] is the code of one
    of the three speeds and the reload register holds that speed's count
    minus one, the value [SysTick_Set_Counter] writes for that count. *)
Theorem reload_is_count_minus_one
  (fuel : nat) (hw : Reg -> Z) (irqs : list Irq) :
  reload_is_count_less_1 (mach (serve irqs (startup fuel hw))) = true
  /\ exists s,
       decode_speed (speed (mach (serve irqs (startup fuel hw)))) = Some s
       /\ regs (mach (serve irqs (startup fuel hw))) SYSTICK_RELOAD =
            speed_count s - 1.
Proof.
  destruct (reload_follows_speed fuel hw irqs) as [s [Hs Hr]].
  unfold reload_is_count_less_1. rewrite Hs, Hr, decode_code.
  split; [apply Z.eqb_refl|].
  exists s. split; reflexivity.
Qed.

(** ** Counting button presses *)

Lemma presses_speed (n : nat) :
  forall (m : Machine) (s : Speed),
    speed m = speed_code s ->
    speed (mach (serve (presses n) m)) = speed_code (Nat.iter n next_speed s).
Proof.
  induction n as [|n IH]; intros m s Hs; [exact Hs|].
  unfold presses. cbn [repeat]. rewrite serve_cons. fold (presses n).
  rewrite Nat.iter_succ_r. apply IH. cbn [isr].
  assert (Hb : bump (speed m) = speed_code (next_speed s))
    by (rewrite Hs; apply bump_code).
  rewrite (EXTI15_10_IRQHandler_run m _ Hb). reflexivity.
Qed.

Lemma next_speed_code (s : Speed) :
  speed_code (next_speed s) = (speed_code s - 1 + 1) mod 3 + 1.
Proof. destruct s; reflexivity. Qed.

Lemma iter_next_speed_code (n : nat) :
  speed_code (Nat.iter n next_speed Fast) = Z.of_nat n mod 3 + 1.
Proof.
  induction n as [|n IH]; [reflexivity|].
  rewrite Nat.iter_succ, next_speed_code, IH.
  replace (Z.of_nat n mod 3 + 1 - 1 + 1) with (Z.of_nat n mod 3 + 1) by lia.
  rewrite Z.add_mod_idemp_l by lia.
  f_equal. f_equal. lia.
Qed.

(** C3.  For every [n], serving [n] button interrupts after startup leaves
    [speed] at the code of the [n]-th successor of Fast in the cycle
    Fast, Medium, Slow, that is at [n mod 3 + 1]; after exactly three it
    is the code of Fast again. *)
Theorem presses_advance_speed_mod_3 (n fuel : nat) (hw : Reg -> Z) :
  speed (mach (serve (presses n) (startup fuel hw))) =
    speed_code (Nat.iter n next_speed Fast)
  /\ decode_speed (speed (mach (serve (presses n) (startup fuel hw)))) =
       Some (Nat.iter n next_speed Fast)
  /\ speed (mach (serve (presses n) (startup fuel hw))) =
       Z.of_nat n mod 3 + 1
  /\ Nat.iter (n + 3) next_speed Fast = Nat.iter n next_speed Fast
  /\ speed (mach (serve (presses 3) (startup fuel hw))) = speed_code Fast.
Proof.
  assert (H0 : speed (startup fuel hw) = speed_code Fast)
    by apply (startup_state fuel hw).
  pose proof (presses_speed n _ _ H0) as Hn.
  pose proof (presses_speed 3 _ _ H0) as H3.
  rewrite Hn. split; [reflexivity|].
  split; [apply decode_code|].
  split; [apply iter_next_speed_code|].
  split; [|exact H3].
  rewrite Nat.add_comm. cbn [Nat.add]. rewrite !Nat.iter_succ.
  destruct (Nat.iter n next_speed Fast); reflexivity.
Qed.

(** * Register-level effect of the initialisation functions *)

(** ** Bits of the constants and of the compound assignments *)

Lemma shiftl_testbit_ones (k n i : Z) :
  0 <= k -> 0 <= n -> 0 <= i ->
  Z.testbit (Z.shiftl (Z.ones k) n) i = (n <=? i) && (i <? n + k).
Proof.
  intros Hk Hn Hi. rewrite Z.shiftl_spec by lia.
  destruct (Z.leb_spec n i) as [Hle|Hlt].
  - rewrite Z.testbit_ones by lia.
    replace (0 <=? i - n) with true by (symmetry; apply Z.leb_le; lia).
    cbn [andb].
    destruct (Z.ltb_spec (i - n) k), (Z.ltb_spec i (n + k));
      try reflexivity; lia.
  - rewrite Z.testbit_neg_r by lia. reflexivity.
Qed.

(** [R |= (1 << n)]: bit [n] becomes 1, the other bits stay. *)
Lemma set_bit_testbit (v n i : Z) :
  0 <= n -> 0 <= i < 32 ->
  Z.testbit (u32 (Z.lor v (Z.shiftl 1 n))) i = (n =? i) || Z.testbit v i.
Proof.
  intros Hn Hi. bits. rewrite shiftl_1_testbit by lia.
  replace (i <? 32) with true by (symmetry; apply Z.ltb_lt; lia).
  cbn [andb]. apply orb_comm.
Qed.

(** [R &= ~(1 << n)]: bit [n] becomes 0, the other bits stay. *)
Lemma clear_bit_testbit (v n i : Z) :
  0 <= n -> 0 <= i < 32 ->
  Z.testbit (u32 (Z.land v (Z.lnot (Z.shiftl 1 n)))) i =
    negb (n =? i) && Z.testbit v i.
Proof.
  intros Hn Hi. rewrite u32_testbit, Z.land_spec, Z.lnot_spec by lia.
  rewrite shiftl_1_testbit by lia.
  replace (i <? 32) with true by (symmetry; apply Z.ltb_lt; lia).
  cbn [andb]. apply andb_comm.
Qed.

(** [R &= ~(mask << n)] for a mask of [k] ones: bits [n .. n+k-1] become
    0, the other bits stay. *)
Lemma clear_field_testbit (v k n i : Z) :
  0 <= k -> 0 <= n -> 0 <= i < 32 ->
  Z.testbit (u32 (Z.land v (Z.lnot (Z.shiftl (Z.ones k) n)))) i =
    negb ((n <=? i) && (i <? n + k)) && Z.testbit v i.
Proof.
  intros Hk Hn Hi. rewrite u32_testbit, Z.land_spec, Z.lnot_spec by lia.
  rewrite shiftl_testbit_ones by lia.
  replace (i <? 32) with true by (symmetry; apply Z.ltb_lt; lia).
  cbn [andb]. apply andb_comm.
Qed.

(** Decide the comparisons left in a goal about one bit position. *)
Ltac bitcases :=
  repeat match goal with
         | |- context [?a =? ?b] => destruct (Z.eqb_spec a b); try lia
         | |- context [?a <=? ?b] => destruct (Z.leb_spec a b); try lia
         | |- context [?a <? ?b] => destruct (Z.ltb_spec a b); try lia
         end;
  cbn [andb orb negb]; try reflexivity.

(** ** What each function leaves in each register *)

Lemma RCC_Init_regs (m : Machine) (r : Reg) :
  regs (mach (RCC_Init m)) r =
    match r with
    | RCC_AHB1ENR =>
        u32 (Z.lor (u32 (Z.lor (regs m RCC_AHB1ENR) (Z.shiftl 1 0)))
                   (Z.shiftl 1 2))
    | RCC_APB2ENR => u32 (Z.lor (regs m RCC_APB2ENR) (Z.shiftl 1 14))
    | _ => regs m r
    end.
Proof. run. destruct r; lookup; reflexivity. Qed.

Lemma GPIOA_Init_regs (m : Machine) (r : Reg) :
  regs (mach (GPIOA_Init m)) r =
    match r with
    | GPIOA_MODER =>
        u32 (Z.lor (u32 (Z.land (regs m GPIOA_MODER)
                                (Z.lnot (Z.shiftl 3 (5 * 2)))))
                   (Z.shiftl 1 (5 * 2)))
    | GPIOA_OTYPER =>
        u32 (Z.land (regs m GPIOA_OTYPER) (Z.lnot (Z.shiftl 1 5)))
    | GPIOA_OSPEEDER =>
        u32 (Z.land (regs m GPIOA_OSPEEDER) (Z.lnot (Z.shiftl 3 (5 * 2))))
    | GPIOA_PUPDR =>
        u32 (Z.land (regs m GPIOA_PUPDR) (Z.lnot (Z.shiftl 3 (5 * 2))))
    | _ => regs m r
    end.
Proof. run. destruct r; lookup; reflexivity. Qed.

Lemma GPIOC_Init_regs (m : Machine) (r : Reg) :
  regs (mach (GPIOC_Init m)) r =
    match r with
    | GPIOC_MODER =>
        u32 (Z.land (regs m GPIOC_MODER) (Z.lnot (Z.shiftl 3 (13 * 2))))
    | GPIOC_PUPDR =>
        u32 (Z.lor (u32 (Z.land (regs m GPIOC_PUPDR)
                                (Z.lnot (Z.shiftl 3 (13 * 2)))))
                   (Z.shiftl 1 (13 * 2)))
    | _ => regs m r
    end.
Proof. run. destruct r; lookup; reflexivity. Qed.

Lemma SysTick_Init_regs (ticks : Z) (m : Machine) (r : Reg) :
  regs (mach (SysTick_Init ticks m)) r =
    match r with
    | SYSTICK_RELOAD => u32 (ticks - 1)
    | SYSTICK_CURRENT => 0
    | SYSTICK_CTRL =>
        u32 (Z.lor (u32 (Z.lor (u32 (Z.lor (regs m SYSTICK_CTRL)
                                           (Z.shiftl 1 2)))
                               (Z.shiftl 1 1)))
                   (Z.shiftl 1 0))
    | _ => regs m r
    end.
Proof. run. destruct r; lookup; reflexivity. Qed.

Lemma EXTI13_Init_regs (m : Machine) (r : Reg) :
  regs (mach (EXTI13_Init m)) r =
    match r with
    | NVIC_ISER1 => u32 (Z.lor (regs m NVIC_ISER1) (Z.shiftl 1 (40 - 32)))
    | SYSCFG_EXTICR4 =>
        u32 (Z.lor (u32 (Z.land (regs m SYSCFG_EXTICR4)
                                (Z.lnot (Z.shiftl 0xF 4))))
                   (Z.shiftl 0x2 4))
    | EXTI_EMR => u32 (Z.land (regs m EXTI_EMR) (Z.lnot (Z.shiftl 1 13)))
    | EXTI_RTSR => u32 (Z.land (regs m EXTI_RTSR) (Z.lnot (Z.shiftl 1 13)))
    | EXTI_FTSR => u32 (Z.lor (regs m EXTI_FTSR) (Z.shiftl 1 13))
    | EXTI_IMR => u32 (Z.lor (regs m EXTI_IMR) (Z.shiftl 1 13))
    | _ => regs m r
    end.
Proof. run. destruct r; lookup; reflexivity. Qed.

Lemma init_keeps_speed (ticks : Z) (m : Machine) :
  speed (mach (RCC_Init m)) = speed m
  /\ speed (mach (GPIOA_Init m)) = speed m
  /\ speed (mach (GPIOC_Init m)) = speed m
  /\ speed (mach (SysTick_Init ticks m)) = speed m
  /\ speed (mach (EXTI13_Init m)) = speed m.
Proof. repeat split. Qed.

Lemma clear_field2_testbit (v n i : Z) :
  0 <= n -> 0 <= i < 32 ->
  Z.testbit (u32 (Z.land v (Z.lnot (Z.shiftl 3 n)))) i =
    negb ((n <=? i) && (i <? n + 2)) && Z.testbit v i.
Proof. intros Hn Hi. apply (clear_field_testbit v 2 n i); lia. Qed.

Lemma clear_field4_testbit (v n i : Z) :
  0 <= n -> 0 <= i < 32 ->
  Z.testbit (u32 (Z.land v (Z.lnot (Z.shiftl 0xF n)))) i =
    negb ((n <=? i) && (i <? n + 4)) && Z.testbit v i.
Proof. intros Hn Hi. apply (clear_field_testbit v 4 n i); lia. Qed.

Lemma set_port_c_testbit (v i : Z) :
  0 <= i < 32 ->
  Z.testbit (u32 (Z.lor v (Z.shiftl 0x2 4))) i = (5 =? i) || Z.testbit v i.
Proof. intros Hi. apply (set_bit_testbit v 5 i); lia. Qed.

(** Rewrite the bits of a register value built by the compound
    assignments, then decide the position. *)
Ltac regbits :=
  cbv iota;
  repeat first
    [ rewrite set_port_c_testbit by lia
    | rewrite set_bit_testbit by lia
    | rewrite clear_bit_testbit by lia
    | rewrite clear_field2_testbit by lia
    | rewrite clear_field4_testbit by lia ];
  bitcases.

(** ** Clock enable, bit by bit *)

(** X1.  [RCC_Init] sets bits 0 and 2 of the AHB1 enable register and
    bit 14 of the APB2 enable register, keeps every other bit of the two,
    and leaves all other registers and [speed] alone.  It only ever turns
    clocks on: no enable bit that was set is cleared. *)
Theorem RCC_Init_enables_clocks (m : Machine) :
  (forall i, 0 <= i < 32 ->
     Z.testbit (regs (mach (RCC_Init m)) RCC_AHB1ENR) i =
       if (i =? 0) || (i =? 2) then true
       else Z.testbit (regs m RCC_AHB1ENR) i)
  /\ (forall i, 0 <= i < 32 ->
        Z.testbit (regs (mach (RCC_Init m)) RCC_APB2ENR) i =
          if i =? 14 then true else Z.testbit (regs m RCC_APB2ENR) i)
  /\ (forall r, r <> RCC_AHB1ENR -> r <> RCC_APB2ENR ->
        regs (mach (RCC_Init m)) r = regs m r)
  /\ speed (mach (RCC_Init m)) = speed m.
Proof.
  split; [|split; [|split; [|reflexivity]]].
  - intros i Hi. rewrite RCC_Init_regs. regbits.
  - intros i Hi. rewrite RCC_Init_regs. regbits.
  - intros r H1 H2. rewrite RCC_Init_regs. destruct r; congruence.
Qed.

(** ** The LED pin *)

(** X2.  [GPIOA_Init] makes pin 5 of port A a push-pull output: mode
    field (bits 11:10) = 01, output-type bit 5 = 0, speed field and pull
    field (bits 11:10) = 00.  Every bit belonging to another pin is kept,
    the output-data register is not written (the pin's level is whatever
    it was), and all other registers and [speed] are unchanged. *)
Theorem GPIOA_Init_configures_PA5 (m : Machine) :
  (forall i, 0 <= i < 32 ->
     Z.testbit (regs (mach (GPIOA_Init m)) GPIOA_MODER) i =
       if i =? 10 then true
       else if i =? 11 then false
       else Z.testbit (regs m GPIOA_MODER) i)
  /\ (forall i, 0 <= i < 32 ->
        Z.testbit (regs (mach (GPIOA_Init m)) GPIOA_OTYPER) i =
          if i =? 5 then false else Z.testbit (regs m GPIOA_OTYPER) i)
  /\ (forall i, 0 <= i < 32 ->
        Z.testbit (regs (mach (GPIOA_Init m)) GPIOA_OSPEEDER) i =
          if (i =? 10) || (i =? 11) then false
          else Z.testbit (regs m GPIOA_OSPEEDER) i)
  /\ (forall i, 0 <= i < 32 ->
        Z.testbit (regs (mach (GPIOA_Init m)) GPIOA_PUPDR) i =
          if (i =? 10) || (i =? 11) then false
          else Z.testbit (regs m GPIOA_PUPDR) i)
  /\ regs (mach (GPIOA_Init m)) GPIOA_ODR = regs m GPIOA_ODR
  /\ (forall r, r <> GPIOA_MODER -> r <> GPIOA_OTYPER ->
        r <> GPIOA_OSPEEDER -> r <> GPIOA_PUPDR ->
        regs (mach (GPIOA_Init m)) r = regs m r)
  /\ writes_to GPIOA_ODR (out (GPIOA_Init m)) = []
  /\ speed (mach (GPIOA_Init m)) = speed m.
Proof.
  repeat match goal with |- _ /\ _ => split end;
    try solve [intros i Hi; rewrite GPIOA_Init_regs; regbits]; try reflexivity.
  intros r H1 H2 H3 H4. rewrite GPIOA_Init_regs. destruct r; congruence.
Qed.

(** ** The button pin *)

(** X3.  [GPIOC_Init] makes pin 13 of port C an input with pull-up: mode
    field (bits 27:26) = 00, pull field (bits 27:26) = 01.  Bits of other
    pins are kept; all other registers and [speed] are unchanged. *)
Theorem GPIOC_Init_configures_PC13 (m : Machine) :
  (forall i, 0 <= i < 32 ->
     Z.testbit (regs (mach (GPIOC_Init m)) GPIOC_MODER) i =
       if (i =? 26) || (i =? 27) then false
       else Z.testbit (regs m GPIOC_MODER) i)
  /\ (forall i, 0 <= i < 32 ->
        Z.testbit (regs (mach (GPIOC_Init m)) GPIOC_PUPDR) i =
          if i =? 26 then true
          else if i =? 27 then false
          else Z.testbit (regs m GPIOC_PUPDR) i)
  /\ (forall r, r <> GPIOC_MODER -> r <> GPIOC_PUPDR ->
        regs (mach (GPIOC_Init m)) r = regs m r)
  /\ speed (mach (GPIOC_Init m)) = speed m.
Proof.
  repeat match goal with |- _ /\ _ => split end;
    try solve [intros i Hi; rewrite GPIOC_Init_regs; regbits]; try reflexivity.
  intros r H1 H2. rewrite GPIOC_Init_regs. destruct r; congruence.
Qed.

(** ** Starting the tick source *)

(** X4.  For [ticks] from 1 up to the largest [uint32_t],
    [SysTick_Init ticks] leaves [ticks - 1] in the reload register, 0 in
    the current-count register and bits 0, 1 and 2 of the control
    register set, keeping the control register's other bits.  The reload
    and current-count registers are written before the control register,
    and of the three control writes only the last changes the enable bit
    (bit 0): the counter is started after its period, clock source and
    interrupt enable are in place. *)
Theorem SysTick_Init_starts_counter_last (ticks : Z) (m : Machine) :
  1 <= ticks < 2 ^ 32 ->
  regs (mach (SysTick_Init ticks m)) SYSTICK_RELOAD = ticks - 1
  /\ regs (mach (SysTick_Init ticks m)) SYSTICK_CURRENT = 0
  /\ (forall i, 0 <= i < 32 ->
        Z.testbit (regs (mach (SysTick_Init ticks m)) SYSTICK_CTRL) i =
          if i <? 3 then true else Z.testbit (regs m SYSTICK_CTRL) i)
  /\ written_regs (out (SysTick_Init ticks m)) =
       [SYSTICK_RELOAD; SYSTICK_CURRENT;
        SYSTICK_CTRL; SYSTICK_CTRL; SYSTICK_CTRL]
  /\ (exists w1 w2 w3,
        writes_to SYSTICK_CTRL (out (SysTick_Init ticks m)) = [w1; w2; w3]
        /\ Z.testbit w1 0 = Z.testbit (regs m SYSTICK_CTRL) 0
        /\ Z.testbit w2 0 = Z.testbit (regs m SYSTICK_CTRL) 0
        /\ Z.testbit w3 0 = true)
  /\ (forall r, r <> SYSTICK_RELOAD -> r <> SYSTICK_CURRENT ->
        r <> SYSTICK_CTRL ->
        regs (mach (SysTick_Init ticks m)) r = regs m r)
  /\ speed (mach (SysTick_Init ticks m)) = speed m.
Proof.
  intros Ht.
  repeat match goal with |- _ /\ _ => split end; try reflexivity.
  - rewrite SysTick_Init_regs. apply u32_small. lia.
  - intros i Hi. rewrite SysTick_Init_regs. regbits.
  - eexists _, _, _. split; [run; lookup; reflexivity|].
    repeat split; rewrite ?set_bit_testbit by lia; reflexivity.
  - intros r H1 H2 H3. rewrite SysTick_Init_regs. destruct r; congruence.
Qed.

Lemma SysTick_Init_starts_counter_last_witness :
  1 <= HIGH_SPEED < 2 ^ 32
  /\ regs (mach (SysTick_Init HIGH_SPEED (power_on zero_regs))) SYSTICK_RELOAD
     = HIGH_SPEED - 1.
Proof.
  assert (H : 1 <= HIGH_SPEED < 2 ^ 32) by (unfold HIGH_SPEED; lia).
  split; [exact H|].
  exact (proj1 (SysTick_Init_starts_counter_last HIGH_SPEED
                  (power_on zero_regs) H)).
Defined.

(** X6.  For every [uint32_t] argument, zero included,
    [SysTick_Set_Counter] leaves a 32-bit value in the reload register:
    [ticks - 1] when [ticks >= 1], and the largest 32-bit value when
    [ticks = 0] (the subtraction wraps). *)
Theorem SysTick_Set_Counter_wraps_at_zero (ticks : Z) (m : Machine) :
  0 <= ticks < 2 ^ 32 ->
  regs (mach (SysTick_Set_Counter ticks m)) SYSTICK_RELOAD =
    (if ticks =? 0 then 2 ^ 32 - 1 else ticks - 1)
  /\ 0 <= regs (mach (SysTick_Set_Counter ticks m)) SYSTICK_RELOAD < 2 ^ 32
  /\ u32 (regs (mach (SysTick_Set_Counter ticks m)) SYSTICK_RELOAD + 1) =
       ticks.
Proof.
  intros Ht.
  assert (Hr : regs (mach (SysTick_Set_Counter ticks m)) SYSTICK_RELOAD =
               if ticks =? 0 then 2 ^ 32 - 1 else ticks - 1).
  { run. lookup. destruct (Z.eqb_spec ticks 0) as [->|Hne].
    - reflexivity.
    - apply u32_small. lia. }
  rewrite Hr. split; [reflexivity|].
  destruct (Z.eqb_spec ticks 0) as [->|Hne].
  - split; [lia | reflexivity].
  - split; [lia|]. replace (ticks - 1 + 1) with ticks by lia.
    apply u32_small. lia.
Qed.

Lemma SysTick_Set_Counter_wraps_at_zero_witness :
  0 <= 0 < 2 ^ 32
  /\ regs (mach (SysTick_Set_Counter 0 (power_on zero_regs))) SYSTICK_RELOAD
     = 2 ^ 32 - 1.
Proof.
  assert (H : 0 <= 0 < 2 ^ 32) by lia.
  split; [exact H|].
  exact (proj1 (SysTick_Set_Counter_wraps_at_zero 0 (power_on zero_regs) H)).
Defined.

(** ** The edge interrupt source *)

(** X5.  [EXTI13_Init] sets bit 8 of the interrupt set-enable register
    (IRQ 40), writes 0010 (port C) into bits 7:4 of the pin-mux register,
    clears bit 13 of the event mask and of the rising-trigger register,
    and sets bit 13 of the falling-trigger register and of the interrupt
    mask; all other bits of these registers are kept.  The interrupt mask
    is the last register written.  The pending register is neither
    written nor changed, and all other registers and [speed] are
    unchanged. *)
Theorem EXTI13_Init_configures_line_13 (m : Machine) :
  (forall i, 0 <= i < 32 ->
     Z.testbit (regs (mach (EXTI13_Init m)) NVIC_ISER1) i =
       if i =? 8 then true else Z.testbit (regs m NVIC_ISER1) i)
  /\ (forall i, 0 <= i < 32 ->
        Z.testbit (regs (mach (EXTI13_Init m)) SYSCFG_EXTICR4) i =
          if i =? 5 then true
          else if (4 <=? i) && (i <? 8) then false
          else Z.testbit (regs m SYSCFG_EXTICR4) i)
  /\ (forall i, 0 <= i < 32 ->
        Z.testbit (regs (mach (EXTI13_Init m)) EXTI_EMR) i =
          if i =? 13 then false else Z.testbit (regs m EXTI_EMR) i)
  /\ (forall i, 0 <= i < 32 ->
        Z.testbit (regs (mach (EXTI13_Init m)) EXTI_RTSR) i =
          if i =? 13 then false else Z.testbit (regs m EXTI_RTSR) i)
  /\ (forall i, 0 <= i < 32 ->
        Z.testbit (regs (mach (EXTI13_Init m)) EXTI_FTSR) i =
          if i =? 13 then true else Z.testbit (regs m EXTI_FTSR) i)
  /\ (forall i, 0 <= i < 32 ->
        Z.testbit (regs (mach (EXTI13_Init m)) EXTI_IMR) i =
          if i =? 13 then true else Z.testbit (regs m EXTI_IMR) i)
  /\ written_regs (out (EXTI13_Init m)) =
       [NVIC_ISER1; SYSCFG_EXTICR4; SYSCFG_EXTICR4;
        EXTI_EMR; EXTI_RTSR; EXTI_FTSR; EXTI_IMR]
  /\ regs (mach (EXTI13_Init m)) EXTI_PR = regs m EXTI_PR
  /\ (forall r, edge_source_reg r = false ->
        regs (mach (EXTI13_Init m)) r = regs m r)
  /\ speed (mach (EXTI13_Init m)) = speed m.
Proof.
  repeat match goal with |- _ /\ _ => split end;
    try solve [intros i Hi; rewrite EXTI13_Init_regs; regbits];
    try reflexivity.
  intros r Hr. rewrite EXTI13_Init_regs. destruct r; try reflexivity;
    discriminate Hr.
Qed.

(** * The handlers on arbitrary machines *)

Ltac switch_cases :=
  repeat match goal with
         | |- context [if ?a =? ?b then _ else _] => destruct (a =? b)
         end;
  cbn [regs speed mach out val].

Lemma EXTI15_10_IRQHandler_other_regs (m : Machine) (r : Reg) :
  r <> EXTI_PR -> r <> SYSTICK_RELOAD -> r <> SYSTICK_CURRENT ->
  regs (mach (EXTI15_10_IRQHandler m)) r = regs m r.
Proof. intros H1 H2 H3. run. switch_cases; lookup; reflexivity. Qed.

Lemma EXTI15_10_IRQHandler_speed (m : Machine) :
  speed (mach (EXTI15_10_IRQHandler m)) = bump (speed m).
Proof. run. switch_cases; reflexivity. Qed.

Lemma SysTick_Handler_regs (m : Machine) (r : Reg) :
  regs (mach (SysTick_Handler m)) r =
    match r with
    | GPIOA_ODR => u32 (Z.lxor (regs m GPIOA_ODR) (Z.shiftl 1 5))
    | _ => regs m r
    end.
Proof. run. destruct r; lookup; reflexivity. Qed.

Lemma toggle_testbit (v i : Z) :
  0 <= i < 32 ->
  Z.testbit (u32 (Z.lxor v (Z.shiftl 1 5))) i =
    if i =? 5 then negb (Z.testbit v i) else Z.testbit v i.
Proof.
  intros Hi. rewrite u32_testbit, Z.lxor_spec, shiftl_1_testbit by lia.
  replace (i <? 32) with true by (symmetry; apply Z.ltb_lt; lia).
  cbn [andb]. rewrite (Z.eqb_sym 5 i).
  destruct (i =? 5); [apply xorb_true_r | apply xorb_false_r].
Qed.

Lemma isr_frame (i : Irq) (m : Machine) (r : Reg) :
  isr_writes r = false -> regs (mach (isr i m)) r = regs m r.
Proof.
  intros Hr. destruct i; cbn [isr].
  - rewrite SysTick_Handler_regs. destruct r; try reflexivity; discriminate Hr.
  - apply EXTI15_10_IRQHandler_other_regs; intros ->; discriminate Hr.
Qed.

Lemma serve_frame (l : list Irq) :
  forall (m : Machine) (r : Reg),
    isr_writes r = false -> regs (mach (serve l m)) r = regs m r.
Proof.
  induction l as [|i l IH]; intros m r Hr; [reflexivity|].
  rewrite serve_cons, IH by exact Hr. apply isr_frame. exact Hr.
Qed.

(** ** The two handlers do not interfere *)

(** X7.  Serving a tick and then a button interrupt leaves every register
    and [speed] exactly as serving them in the other order does, from
    every machine state. *)
Theorem handlers_commute (m : Machine) :
  (forall r,
     regs (mach ((SysTick_Handler ;; EXTI15_10_IRQHandler) m)) r =
     regs (mach ((EXTI15_10_IRQHandler ;; SysTick_Handler) m)) r)
  /\ speed (mach ((SysTick_Handler ;; EXTI15_10_IRQHandler) m)) =
     speed (mach ((EXTI15_10_IRQHandler ;; SysTick_Handler) m)).
Proof.
  split.
  - intros r. run. switch_cases; destruct r; lookup; reflexivity.
  - run. switch_cases; reflexivity.
Qed.

(** X13.  The speed-change handler never looks at which line is pending:
    whatever the pending register holds (bit 13 set or not), it advances
    [speed] the same way, makes the same calls and leaves the same reload
    and current-count values. *)
Theorem EXTI15_10_IRQHandler_ignores_pending (pr : Z) (m : Machine) :
  speed (mach (EXTI15_10_IRQHandler (with_pending pr m))) =
    speed (mach (EXTI15_10_IRQHandler m))
  /\ speed (mach (EXTI15_10_IRQHandler (with_pending pr m))) =
       bump (speed m)
  /\ calls (out (EXTI15_10_IRQHandler (with_pending pr m))) =
       calls (out (EXTI15_10_IRQHandler m))
  /\ regs (mach (EXTI15_10_IRQHandler (with_pending pr m))) SYSTICK_RELOAD =
       regs (mach (EXTI15_10_IRQHandler m)) SYSTICK_RELOAD
  /\ regs (mach (EXTI15_10_IRQHandler (with_pending pr m))) SYSTICK_CURRENT =
       regs (mach (EXTI15_10_IRQHandler m)) SYSTICK_CURRENT.
Proof.
  unfold with_pending. run. fold (bump (speed m)).
  repeat split; switch_cases; lookup; reflexivity.
Qed.

(** * Runs of interleaved interrupts *)

Lemma count_irq_cons (i j : Irq) (l : list Irq) :
  count_irq i (j :: l) =
    if Irq_eqb i j then S (count_irq i l) else count_irq i l.
Proof. unfold count_irq. cbn [filter]. destruct (Irq_eqb i j); reflexivity. Qed.

(** X8.  From any machine, after any run of tick and button interrupts in
    any order, the LED bit (bit 5 of the port A output-data register) is
    its initial value flipped once per tick served, button interrupts
    not counting; every other bit of that register is as it was. *)
Theorem led_flips_once_per_tick (l : list Irq) (m : Machine) :
  Z.testbit (regs (mach (serve l m)) GPIOA_ODR) 5 =
    xorb (Z.testbit (regs m GPIOA_ODR) 5) (Nat.odd (count_irq IrqSysTick l))
  /\ (forall i, 0 <= i < 32 -> i <> 5 ->
        Z.testbit (regs (mach (serve l m)) GPIOA_ODR) i =
          Z.testbit (regs m GPIOA_ODR) i).
Proof.
  revert m. induction l as [|j l IH]; intros m.
  - split; [symmetry; apply xorb_false_r | reflexivity].
  - destruct (IH (mach (isr j m))) as [IH5 IHi].
    rewrite serve_cons, count_irq_cons. split.
    + rewrite IH5. destruct j; cbn [isr Irq_eqb].
      * rewrite SysTick_Handler_regs, toggle_testbit by lia.
        cbn [Z.eqb Pos.eqb]. rewrite Nat.odd_succ, <- Nat.negb_odd.
        destruct (Z.testbit (regs m GPIOA_ODR) 5),
                 (Nat.odd (count_irq IrqSysTick l)); reflexivity.
      * rewrite EXTI15_10_IRQHandler_other_regs by discriminate.
        reflexivity.
    + intros i Hi Hne. rewrite IHi by assumption.
      destruct j; cbn [isr].
      * rewrite SysTick_Handler_regs, toggle_testbit by lia.
        destruct (Z.eqb_spec i 5); [contradiction | reflexivity].
      * rewrite EXTI15_10_IRQHandler_other_regs by discriminate.
        reflexivity.
Qed.

Lemma serve_speed (l : list Irq) :
  forall (m : Machine) (s : Speed),
    speed m = speed_code s ->
    regs m SYSTICK_RELOAD = speed_count s - 1 ->
    speed (mach (serve l m)) =
      speed_code (Nat.iter (count_irq IrqEXTI15_10 l) next_speed s)
    /\ regs (mach (serve l m)) SYSTICK_RELOAD =
         speed_count (Nat.iter (count_irq IrqEXTI15_10 l) next_speed s) - 1.
Proof.
  induction l as [|j l IH]; intros m s Hs Hr; [split; assumption|].
  rewrite serve_cons, count_irq_cons. destruct j; cbn [isr Irq_eqb].
  - apply IH.
    + rewrite (proj1 (SysTick_Handler_keeps m)). exact Hs.
    + rewrite (proj2 (SysTick_Handler_keeps m)). exact Hr.
  - rewrite Nat.iter_succ_r.
    assert (Hb : bump (speed m) = speed_code (next_speed s))
      by (rewrite Hs; apply bump_code).
    apply IH; rewrite (EXTI15_10_IRQHandler_run m _ Hb); cbn [mach regs speed];
      lookup; reflexivity.
Qed.

(** X9.  After startup and any run of interrupts, ticks and button
    presses interleaved in any order, [speed] depends only on the number
    [n] of button interrupts served: it is [n mod 3 + 1], the code of the
    [n]-th successor of Fast, and the reload register holds that speed's
    count minus one.  Ticks never change the selected speed. *)
Theorem speed_counts_button_interrupts_only
  (l : list Irq) (fuel : nat) (hw : Reg -> Z) :
  speed (mach (serve l (startup fuel hw))) =
    Z.of_nat (count_irq IrqEXTI15_10 l) mod 3 + 1
  /\ decode_speed (speed (mach (serve l (startup fuel hw)))) =
       Some (Nat.iter (count_irq IrqEXTI15_10 l) next_speed Fast)
  /\ regs (mach (serve l (startup fuel hw))) SYSTICK_RELOAD =
       speed_count (Nat.iter (count_irq IrqEXTI15_10 l) next_speed Fast) - 1.
Proof.
  destruct (startup_state fuel hw) as (Hs & Hr & _).
  destruct (serve_speed l (startup fuel hw) Fast Hs Hr) as [H1 H2].
  rewrite H1, H2, decode_code, iter_next_speed_code.
  repeat split.
Qed.

(** * The configuration main leaves *)

Lemma mach_bind {A B : Type} (c : M A) (k : A -> M B) (m : Machine) :
  mach (bind c k m) = mach (k (val (c m)) (mach (c m))).
Proof. reflexivity. Qed.

Lemma startup_regs (fuel : nat) (hw : Reg -> Z) (r : Reg) :
  regs (startup fuel hw) r =
    regs (mach (EXTI13_Init
           (mach (SysTick_Init HIGH_SPEED
             (mach (GPIOC_Init
               (mach (GPIOA_Init
                 (mach (RCC_Init (power_on hw))))))))))) r.
Proof.
  unfold startup. rewrite main_unfuelled. unfold main.
  rewrite !mach_bind. reflexivity.
Qed.

(** Follow a register back through the five initialisation calls. *)
Ltac through_init :=
  repeat (first [ rewrite EXTI13_Init_regs | rewrite SysTick_Init_regs
                | rewrite GPIOC_Init_regs | rewrite GPIOA_Init_regs
                | rewrite RCC_Init_regs ]; cbv iota).

Lemma startup_configured (fuel : nat) (hw : Reg -> Z) :
  configured (startup fuel hw) = true.
Proof.
  unfold configured. rewrite !startup_regs. through_init.
  rewrite ?set_port_c_testbit, ?set_bit_testbit, ?clear_bit_testbit,
    ?clear_field2_testbit, ?clear_field4_testbit by lia.
  rewrite ?set_bit_testbit, ?clear_field2_testbit, ?clear_field4_testbit
    by lia.
  rewrite ?set_bit_testbit by lia.
  reflexivity.
Qed.

Lemma configured_frame (m m' : Machine) :
  (forall r, isr_writes r = false -> regs m' r = regs m r) ->
  configured m' = configured m.
Proof.
  intros H. unfold configured. rewrite !H by reflexivity. reflexivity.
Qed.

(** X10.  Whatever the registers hold at reset, once [main] has made its
    five calls every field it programs has the value the code writes,
    all at once (no later call undoes an earlier one): clocks enabled,
    PA5 push-pull output, PC13 input with pull-up, tick source running
    with its interrupt, EXTI13 routed to port C, falling edge, unmasked,
    IRQ 40 enabled.  The configuration is still in place after any run
    of interrupts.  [main] changes neither the LED level nor the pending
    register. *)
Theorem main_configures_and_handlers_preserve
  (fuel : nat) (hw : Reg -> Z) (l : list Irq) :
  configured (startup fuel hw) = true
  /\ configured (mach (serve l (startup fuel hw))) = true
  /\ regs (startup fuel hw) GPIOA_ODR = hw GPIOA_ODR
  /\ regs (startup fuel hw) EXTI_PR = hw EXTI_PR.
Proof.
  split; [apply startup_configured|]. split.
  - rewrite (configured_frame (startup fuel hw)).
    + apply startup_configured.
    + intros r Hr. apply serve_frame. exact Hr.
  - split; rewrite startup_regs; through_init; reflexivity.
Qed.

(** X12.  No run of interrupts, from any machine, changes a register
    other than the port A output-data register, the pending register and
    the tick source's reload and current-count registers. *)
Theorem handlers_write_four_registers_only
  (l : list Irq) (m : Machine) (r : Reg) :
  isr_writes r = false ->
  regs (mach (serve l m)) r = regs m r.
Proof. intros Hr. apply serve_frame. exact Hr. Qed.

Lemma handlers_write_four_registers_only_witness :
  isr_writes SYSTICK_CTRL = false
  /\ regs (mach (serve [IrqEXTI15_10; IrqSysTick; IrqEXTI15_10]
                   (startup 0 zero_regs))) SYSTICK_CTRL
     = regs (startup 0 zero_regs) SYSTICK_CTRL.
Proof.
  assert (H : isr_writes SYSTICK_CTRL = false) by reflexivity.
  split; [exact H|].
  exact (handlers_write_four_registers_only
           [IrqEXTI15_10; IrqSysTick; IrqEXTI15_10]
           (startup 0 zero_regs) SYSTICK_CTRL H).
Defined.

(** * Running an initialisation function again *)

(** Two register values built by the compound assignments are equal when
    all their bits are. *)
Ltac same_bits :=
  try reflexivity;
  apply Z.bits_inj'; intros ? ?; bits; btauto.

(** X11.  [GPIOA_Init], [GPIOC_Init], [SysTick_Init] and [EXTI13_Init]
    are idempotent on the machine state: from every state, calling one of
    them twice in a row leaves every register and [speed] as calling it
    once does. *)
Theorem init_functions_idempotent (ticks : Z) (m : Machine) :
  (forall r, regs (mach ((GPIOA_Init ;; GPIOA_Init) m)) r =
             regs (mach (GPIOA_Init m)) r)
  /\ (forall r, regs (mach ((GPIOC_Init ;; GPIOC_Init) m)) r =
                regs (mach (GPIOC_Init m)) r)
  /\ (forall r,
        regs (mach ((SysTick_Init ticks ;; SysTick_Init ticks) m)) r =
        regs (mach (SysTick_Init ticks m)) r)
  /\ (forall r, regs (mach ((EXTI13_Init ;; EXTI13_Init) m)) r =
                regs (mach (EXTI13_Init m)) r)
  /\ speed (mach ((GPIOA_Init ;; GPIOA_Init) m)) = speed m
  /\ speed (mach ((GPIOC_Init ;; GPIOC_Init) m)) = speed m
  /\ speed (mach ((SysTick_Init ticks ;; SysTick_Init ticks) m)) = speed m
  /\ speed (mach ((EXTI13_Init ;; EXTI13_Init) m)) = speed m.
Proof.
  repeat match goal with |- _ /\ _ => split end; try reflexivity;
    intros r; rewrite mach_bind.
  - rewrite (GPIOA_Init_regs (mach (GPIOA_Init m))).
    destruct r; rewrite !GPIOA_Init_regs; cbv iota; same_bits.
  - rewrite (GPIOC_Init_regs (mach (GPIOC_Init m))).
    destruct r; rewrite !GPIOC_Init_regs; cbv iota; same_bits.
  - rewrite (SysTick_Init_regs ticks (mach (SysTick_Init ticks m))).
    destruct r; rewrite !SysTick_Init_regs; cbv iota; same_bits.
  - rewrite (EXTI13_Init_regs (mach (EXTI13_Init m))).
    destruct r; rewrite !EXTI13_Init_regs; cbv iota; same_bits.
Qed.

(** * The register map *)

(** X14.  The nineteen register macros name nineteen different words:
    their addresses are pairwise distinct, 4-byte aligned and fit in 32
    bits, so a write through one macro never lands in a register read
    through another. *)
Theorem register_addresses_distinct_and_aligned :
  (forall a b, addr a = addr b -> a = b)
  /\ (forall r, addr r mod 4 = 0)
  /\ (forall r, 0 <= addr r < 2 ^ 32).
Proof.
  split; [exact addr_injective|].
  split; intros r; destruct r; vm_compute; try reflexivity;
    (split; [intros H; discriminate H | reflexivity]).
Qed.

(** * main, call by call *)

Lemma out_bind {A B : Type} (c : M A) (k : A -> M B) (m : Machine) :
  out (bind c k m) = out (c m) ++ out (k (val (c m)) (mach (c m))).
Proof. reflexivity. Qed.

Lemma replay_app (t1 t2 : list Event) (m : Machine) :
  replay (t1 ++ t2) m = replay t2 (replay t1 m).
Proof. unfold replay. apply fold_left_app. Qed.

Lemma replay_cons (e : Event) (t : list Event) (m : Machine) :
  replay (e :: t) m = replay t (apply_event e m).
Proof. reflexivity. Qed.

Lemma logged_ret {A : Type} (a : A) : logged (ret a).
Proof. intros m. reflexivity. Qed.

Lemma logged_bind {A B : Type} (c : M A) (k : A -> M B) :
  logged c -> (forall a, logged (k a)) -> logged (bind c k).
Proof.
  intros Hc Hk m. rewrite out_bind, replay_app, Hc, Hk. reflexivity.
Qed.

Lemma logged_read_reg (r : Reg) : logged (read_reg r).
Proof. intros m. reflexivity. Qed.

Lemma logged_write_reg (r : Reg) (v : Z) : logged (write_reg r v).
Proof. intros m. reflexivity. Qed.

Lemma logged_load_speed : logged load_speed.
Proof. intros m. reflexivity. Qed.

Lemma logged_store_speed (v : Z) : logged (store_speed v).
Proof. intros m. reflexivity. Qed.

Lemma logged_enter (f : Fn) (args : list Z) : logged (enter f args).
Proof. intros m. reflexivity. Qed.

Lemma logged_while (fuel : nat) (cond : M bool) (body : M unit) :
  logged cond -> logged body -> logged (while_ fuel cond body).
Proof.
  intros Hc Hb. induction fuel as [|n IH]; cbn [while_].
  - apply logged_ret.
  - apply logged_bind; [exact Hc|]. intros [|].
    + apply logged_bind; [exact Hb | intros _; exact IH].
    + apply logged_ret.
Qed.

(** Build the proof that a computation is logged from its syntax. *)
Ltac prove_logged :=
  repeat first
    [ apply logged_bind | apply logged_ret | apply logged_read_reg
    | apply logged_write_reg | apply logged_load_speed
    | apply logged_store_speed | apply logged_enter
    | apply logged_while
    | match goal with
      | |- logged (match ?x with _ => _ end) => destruct x
      | |- forall _, logged _ => intro
      end ].

Lemma logged_RCC_Init : logged RCC_Init.
Proof. unfold RCC_Init, or_reg. prove_logged. Qed.

Lemma logged_GPIOA_Init : logged GPIOA_Init.
Proof. unfold GPIOA_Init, or_reg, and_reg. prove_logged. Qed.

Lemma logged_GPIOC_Init : logged GPIOC_Init.
Proof. unfold GPIOC_Init, or_reg, and_reg. prove_logged. Qed.

Lemma logged_SysTick_Init (ticks : Z) : logged (SysTick_Init ticks).
Proof. unfold SysTick_Init, SysTick_Set_Counter, or_reg. prove_logged. Qed.

Lemma logged_EXTI13_Init : logged EXTI13_Init.
Proof. unfold EXTI13_Init, or_reg, and_reg. prove_logged. Qed.

Lemma logged_main (fuel : nat) : logged (main fuel).
Proof.
  unfold main.
  repeat first
    [ apply logged_RCC_Init | apply logged_GPIOA_Init
    | apply logged_GPIOC_Init | apply logged_SysTick_Init
    | apply logged_EXTI13_Init | progress prove_logged ].
Qed.

(** The machine [main] hands to [EXTI13_Init]. *)
Lemma main_regs (fuel : nat) (m : Machine) (r : Reg) :
  regs (mach (main fuel m)) r =
    regs (mach (EXTI13_Init
           (mach (SysTick_Init HIGH_SPEED
             (mach (GPIOC_Init
               (mach (GPIOA_Init
                 (mach (RCC_Init m)))))))))) r.
Proof.
  rewrite main_unfuelled. unfold main.
  rewrite !mach_bind. reflexivity.
Qed.

Lemma main_out (fuel : nat) (m : Machine) :
  out (main fuel m) =
    (EvCall F_main []
     :: out (RCC_Init m)
     ++ out (GPIOA_Init (mach (RCC_Init m)))
     ++ out (GPIOC_Init (mach (GPIOA_Init (mach (RCC_Init m)))))
     ++ out (SysTick_Init HIGH_SPEED
               (mach (GPIOC_Init (mach (GPIOA_Init (mach (RCC_Init m)))))))
    )
    ++ out (EXTI13_Init
              (mach (SysTick_Init HIGH_SPEED
                (mach (GPIOC_Init
                  (mach (GPIOA_Init (mach (RCC_Init m))))))))).
Proof.
  rewrite main_unfuelled. unfold main.
  repeat (rewrite out_bind; cbv beta).
  repeat (rewrite mach_bind; cbv beta).
  cbn [while_ ret enter out mach val app].
  rewrite !app_nil_r, <- !app_assoc. reflexivity.
Qed.

Lemma before_first_app (p : Event -> bool) (pre post : list Event) (e : Event) :
  existsb p pre = false -> p e = true ->
  before_first p (pre ++ e :: post) = pre.
Proof.
  intros Hpre He. induction pre as [|x pre IH]; cbn [app before_first].
  - rewrite He. reflexivity.
  - cbn [existsb] in Hpre. apply orb_false_iff in Hpre as [Hx Hpre].
    rewrite Hx, IH by exact Hpre. reflexivity.
Qed.

Lemma EXTI13_Init_out_head (m : Machine) :
  exists post, out (EXTI13_Init m) = EvCall F_EXTI13_Init [] :: post.
Proof. eexists. run. reflexivity. Qed.

Lemma main_out_split (fuel : nat) (m : Machine) :
  out (main fuel m) =
    log_before_EXTI13_Init m ++ out (EXTI13_Init (machine_at_EXTI13_Init m)).
Proof. apply main_out. Qed.

(** The log of [main] up to the call of [EXTI13_Init]. *)
Lemma main_out_before_EXTI13_Init (fuel : nat) (m : Machine) :
  before_first (is_call F_EXTI13_Init) (out (main fuel m)) =
    log_before_EXTI13_Init m.
Proof.
  rewrite main_out_split.
  destruct (EXTI13_Init_out_head (machine_at_EXTI13_Init m)) as [post ->].
  apply before_first_app; [|reflexivity].
  vm_compute. reflexivity.
Qed.

(** The machine at the call of [EXTI13_Init], rebuilt from the log. *)
Lemma main_state_before_EXTI13_Init (fuel : nat) (m : Machine) :
  replay (before_first (is_call F_EXTI13_Init) (out (main fuel m))) m =
    machine_at_EXTI13_Init m.
Proof.
  rewrite main_out_before_EXTI13_Init.
  unfold log_before_EXTI13_Init, machine_at_EXTI13_Init.
  rewrite replay_cons. cbn [apply_event].
  rewrite !replay_app.
  rewrite logged_RCC_Init, logged_GPIOA_Init, logged_GPIOC_Init,
    logged_SysTick_Init.
  reflexivity.
Qed.

Ltac decide_bits :=
  rewrite ?set_port_c_testbit, ?set_bit_testbit, ?clear_bit_testbit,
    ?clear_field2_testbit, ?clear_field4_testbit by lia;
  rewrite ?set_bit_testbit, ?clear_field2_testbit, ?clear_field4_testbit
    by lia;
  rewrite ?set_bit_testbit by lia.

Lemma main_configured (fuel : nat) (m : Machine) :
  configured (mach (main fuel m)) = true.
Proof.
  unfold configured. rewrite !main_regs. through_init. decide_bits.
  reflexivity.
Qed.

Lemma output_and_tick_ready (m : Machine) :
  output_and_tick_configured (machine_at_EXTI13_Init m) = true.
Proof.
  unfold output_and_tick_configured, machine_at_EXTI13_Init.
  through_init. decide_bits. reflexivity.
Qed.

Lemma edge_source_untouched (m : Machine) (r : Reg) :
  edge_source_reg r = true ->
  regs (machine_at_EXTI13_Init m) r = regs m r.
Proof.
  intros Hr. unfold machine_at_EXTI13_Init.
  destruct r; try discriminate Hr; through_init; reflexivity.
Qed.

(** C6.  For every amount of fuel and every initial machine, [main]
    - calls [RCC_Init], [GPIOA_Init], [GPIOC_Init], [SysTick_Init]
      (which calls [SysTick_Set_Counter]) and [EXTI13_Init], each once
      and in this order, and writes the registers in the order listed;
    - does exactly what these five functions do, one after the other: its
      log is their logs in that order, each run on the machine the
      previous one left, its final registers are those [EXTI13_Init]
      leaves on the machine the first four built, and replaying the log
      gives its final machine;
    - touches no register of the edge interrupt source before it calls
      [EXTI13_Init], and at that call the machine already has PA5
      configured as output and the tick source loaded for [HIGH_SPEED]
      and running, with the edge source's registers still as at entry;
      from that call on no register of port A or of the tick source is
      touched;
    - ends with every field of the five peripherals programmed and
      [speed] as it was;
    - has not returned: the result is [None] whatever the fuel. *)
Theorem main_configures_in_order_and_never_returns
  (fuel : nat) (m : Machine) :
  calls (out (main fuel m)) =
    [(F_main, []); (F_RCC_Init, []); (F_GPIOA_Init, []); (F_GPIOC_Init, []);
     (F_SysTick_Init, [HIGH_SPEED]); (F_SysTick_Set_Counter, [HIGH_SPEED]);
     (F_EXTI13_Init, [])]
  /\ written_regs (out (main fuel m)) =
       [RCC_AHB1ENR; RCC_AHB1ENR; RCC_APB2ENR;
        GPIOA_MODER; GPIOA_MODER; GPIOA_OTYPER; GPIOA_OSPEEDER; GPIOA_PUPDR;
        GPIOC_MODER; GPIOC_PUPDR; GPIOC_PUPDR;
        SYSTICK_RELOAD; SYSTICK_CURRENT;
        SYSTICK_CTRL; SYSTICK_CTRL; SYSTICK_CTRL;
        NVIC_ISER1; SYSCFG_EXTICR4; SYSCFG_EXTICR4;
        EXTI_EMR; EXTI_RTSR; EXTI_FTSR; EXTI_IMR]
  /\ existsb (accesses edge_source_reg)
       (before_first (is_call F_EXTI13_Init) (out (main fuel m))) = false
  /\ calls (before_first (is_call F_EXTI13_Init) (out (main fuel m))) =
       [(F_main, []); (F_RCC_Init, []); (F_GPIOA_Init, []);
        (F_GPIOC_Init, []); (F_SysTick_Init, [HIGH_SPEED]);
        (F_SysTick_Set_Counter, [HIGH_SPEED])]
  /\ existsb (accesses output_or_tick_reg)
       (from_first (is_call F_EXTI13_Init) (out (main fuel m))) = false
  /\ val (main fuel m) = None
  /\ out (main fuel m) =
       log_before_EXTI13_Init m
       ++ out (EXTI13_Init (machine_at_EXTI13_Init m))
  /\ before_first (is_call F_EXTI13_Init) (out (main fuel m)) =
       log_before_EXTI13_Init m
  /\ replay (out (main fuel m)) m = mach (main fuel m)
  /\ replay (before_first (is_call F_EXTI13_Init) (out (main fuel m))) m =
       machine_at_EXTI13_Init m
  /\ (forall r,
        regs (mach (main fuel m)) r =
        regs (mach (EXTI13_Init (machine_at_EXTI13_Init m))) r)
  /\ output_and_tick_configured
       (replay (before_first (is_call F_EXTI13_Init) (out (main fuel m))) m)
     = true
  /\ (forall r, edge_source_reg r = true ->
        regs (replay (before_first (is_call F_EXTI13_Init)
                        (out (main fuel m))) m) r = regs m r)
  /\ configured (mach (main fuel m)) = true
  /\ speed (mach (main fuel m)) = speed m.
Proof.
  destruct (main_log_shape fuel m) as (H1 & H2 & H3 & H4 & H5 & H6).
  do 6 (split; [assumption|]).
  split; [apply main_out_split|].
  split; [apply main_out_before_EXTI13_Init|].
  split; [apply logged_main|].
  split; [apply main_state_before_EXTI13_Init|].
  split; [intros r; apply main_regs|].
  rewrite main_state_before_EXTI13_Init.
  split; [apply output_and_tick_ready|].
  split; [intros r Hr; apply edge_source_untouched; exact Hr|].
  split; [apply main_configured|].
  rewrite main_unfuelled. reflexivity.
Qed.
